(** * Cafe ordering system: a shallow embedding of [cafe_ordering_system.py]

    The Python program keeps its objects (orders, order lines, bills) on the
    heap and mutates them in place; observers are called back on every
    change of an order.  The embedding below keeps that shape:

    - objects that are mutated or referenced from several places live in
      finite maps from locations to records ([World]);
    - operations pass the world explicitly and return [option]: [None] only
      stands for a reference to an unallocated location, which a running
      Python program never holds (see [wf]);
    - Python exceptions are explicit ([PyResult]);
    - [print] and [input] act on the [w_stdout] / [w_stdin] components;
    - integers are [Z]; the type [float] and the few operations of the
      Python runtime that the program applies to floats and strings are
      the fields of a structure [PyLib], over which every definition and
      every general theorem is parametric.  The examples are run on one
      instance, [ExactLib];
    - the decimal text of an integer in a formatted line is [pretty]. *)

From Stdlib Require Import ZArith QArith Qcanon Ascii String.
From stdpp Require Import gmap strings list pretty.

Local Open Scope Z_scope.

(** ** Python values shared by the whole program *)

Inductive PyExc :=
  | AttributeError   (* attribute access on [None] *)
  | ValueError
  | OverflowError    (* int too large to convert to float *)
  | EOFError.        (* [input()] at end of input *)

Inductive PyResult (A : Type) :=
  | Ret (a : A)
  | Raise (e : PyExc).
Arguments Ret {A} a.
Arguments Raise {A} e.

(** ** The Python runtime

    What the program uses of floats and of [str]: the literals 0.0 and
    0.20, [x + y] and [x * y] on floats, the conversion of the [int]
    operand of [float * int] (which raises [OverflowError] for an int too
    large for a float), the built-in [sum] on a sequence of floats, the
    test [x <= 0], and [str.upper()] / [str.lower()].  The three laws are
    the only facts about them that the development relies on:
    [sum([])] is 0, which [0 + 0 * 0.20] turns into 0.0, and
    [0.0 <= 0] holds. *)
Class PyLib := {
  float : Type;
  float_0 : float;
  float_0_20 : float;
  fadd : float → float → float;
  fmul : float → float → float;
  float_of_int : Z → PyResult float;
  fsum : list float → float;
  fle_0 : float → bool;
  upper : string → string;
  lower : string → string;
  fsum_nil : fsum [] = float_0;
  total_of_nothing : fadd float_0 (fmul float_0 float_0_20) = float_0;
  fle_0_zero : fle_0 float_0 = true;
}.

Abbreviation loc := positive.

Record date := { year : Z; month : Z; day : Z }.

(** ** Observers *)

(** The two observer classes of the source; [oid] is the identity of the
    object. *)
Inductive Observer :=
  | BaseObserver (oid : nat)     (* class Observer: update does nothing *)
  | OrderObserver (oid : nat).   (* class OrderObserver: update prints *)

Global Instance Observer_eq_dec : EqDecision Observer.
Proof. solve_decision. Defined.

Section Values.
Context {py : PyLib}.

(** What the program writes on the terminal.  Lines whose text is fixed are
    kept as text; lines that format a number keep the number. *)
Inductive Output :=
  | Print (line : string)
  | PrintTotalError (e : PyExc)
      (* print(f"there was an error calculating the total: {e}") *)
  | PrintPayment (amount : float) (method : string).
      (* print(f"Payment of £{amount:.2f} received via {method}") *)

(** ** Menu items *)

Inductive MenuItem :=
  | FoodItem (item_id : Z) (item_name : string) (item_price : float)
  | DrinkItem (item_id : Z) (item_name : string) (item_price : float)
              (drink_size : option string).

Definition item_id (m : MenuItem) : Z :=
  match m with FoodItem i _ _ | DrinkItem i _ _ _ => i end.
Definition item_name (m : MenuItem) : string :=
  match m with FoodItem _ n _ | DrinkItem _ n _ _ => n end.
Definition item_price (m : MenuItem) : float :=
  match m with FoodItem _ _ p | DrinkItem _ _ p _ => p end.
End Values.

Module MenuItemFactory.
Section Factory.
Context {py : PyLib}.

Definition create_menu_item (item_type : string) (item_id : Z)
    (name : string) (price : float) (size : option string)
    : PyResult MenuItem :=
  if String.eqb (lower item_type) "food" then
    Ret (FoodItem item_id name price)
  else if String.eqb (lower item_type) "drink" then
    Ret (DrinkItem item_id name price size)
  else Raise ValueError.
End Factory.
End MenuItemFactory.

Section Heap.
Context {py : PyLib}.

(** ** Order lines, orders, bills, payments *)

(** [menu_item] is a reference that Python lets be [None]. *)
Record OrderItem := {
  orderitem_id : Z;
  menu_item : option MenuItem;
  quantity : Z;
}.

Record Order := {
  order_id : Z;
  order_date : date;
  order_status : string;
  order_items : list loc;          (* references to OrderItem objects *)
  _observers : list Observer;      (* inherited from Subject *)
}.

Record Bill := {
  bill_id : Z;
  order : loc;                     (* reference to the live Order *)
  bill_total : float;
}.

Record Payment := {
  payment_id : string;
  payment_method : string;
  payment_amount : float;
}.

Record Menu := { items : list MenuItem }.

(** ** The world *)

Record World := {
  w_items : gmap loc OrderItem;
  w_orders : gmap loc Order;
  w_bills : gmap loc Bill;
  w_updates : list (Observer * string);  (* calls of [update], oldest first *)
  w_stdout : list Output;
  w_stdin : list string;
}.

Definition empty_world : World :=
  {| w_items := ∅; w_orders := ∅; w_bills := ∅;
     w_updates := []; w_stdout := []; w_stdin := [] |}.

Definition upd_items (f : gmap loc OrderItem → gmap loc OrderItem)
    (w : World) : World :=
  {| w_items := f (w_items w); w_orders := w_orders w; w_bills := w_bills w;
     w_updates := w_updates w; w_stdout := w_stdout w; w_stdin := w_stdin w |}.

Definition upd_orders (f : gmap loc Order → gmap loc Order)
    (w : World) : World :=
  {| w_items := w_items w; w_orders := f (w_orders w); w_bills := w_bills w;
     w_updates := w_updates w; w_stdout := w_stdout w; w_stdin := w_stdin w |}.

Definition upd_bills (f : gmap loc Bill → gmap loc Bill)
    (w : World) : World :=
  {| w_items := w_items w; w_orders := w_orders w; w_bills := f (w_bills w);
     w_updates := w_updates w; w_stdout := w_stdout w; w_stdin := w_stdin w |}.

Definition log_update (ob : Observer) (message : string) (w : World) : World :=
  {| w_items := w_items w; w_orders := w_orders w; w_bills := w_bills w;
     w_updates := w_updates w ++ [(ob, message)];
     w_stdout := w_stdout w; w_stdin := w_stdin w |}.

Definition print (o : Output) (w : World) : World :=
  {| w_items := w_items w; w_orders := w_orders w; w_bills := w_bills w;
     w_updates := w_updates w;
     w_stdout := w_stdout w ++ [o]; w_stdin := w_stdin w |}.

Definition set_stdin (inp : list string) (w : World) : World :=
  {| w_items := w_items w; w_orders := w_orders w; w_bills := w_bills w;
     w_updates := w_updates w; w_stdout := w_stdout w; w_stdin := inp |}.

Definition set_order_items (l : list loc) (o : Order) : Order :=
  {| order_id := order_id o; order_date := order_date o;
     order_status := order_status o; order_items := l;
     _observers := _observers o |}.

Definition set_order_status (s : string) (o : Order) : Order :=
  {| order_id := order_id o; order_date := order_date o;
     order_status := s; order_items := order_items o;
     _observers := _observers o |}.

Definition set_observers (l : list Observer) (o : Order) : Order :=
  {| order_id := order_id o; order_date := order_date o;
     order_status := order_status o; order_items := order_items o;
     _observers := l |}.

Definition set_quantity (q : Z) (i : OrderItem) : OrderItem :=
  {| orderitem_id := orderitem_id i; menu_item := menu_item i; quantity := q |}.

Definition set_payment_method (m : string) (p : Payment) : Payment :=
  {| payment_id := payment_id p; payment_method := m;
     payment_amount := payment_amount p |}.

(** ** class Observer / OrderObserver *)

(** [observer.update(message)].  Every call is recorded in [w_updates];
    an [OrderObserver] also prints the message. *)
Definition update (ob : Observer) (message : string) (w : World) : World :=
  let w := log_update ob message w in
  match ob with
  | BaseObserver _ => w
  | OrderObserver _ => print (Print ("[Notification] " ++ message)) w
  end.

End Heap.

(** ** class Subject (the base class of Order) *)

Module Subject.
Section SubjectDefs.
Context {py : PyLib}.

Definition attach (w : World) (self : loc) (observer : Observer)
    : option World :=
  o ← w_orders w !! self;
  Some (upd_orders <[self := set_observers (_observers o ++ [observer]) o]> w).

(** for observer in self._observers: observer.update(message) *)
Definition notify (w : World) (self : loc) (message : string)
    : option World :=
  o ← w_orders w !! self;
  Some (foldl (λ w observer, update observer message w) w (_observers o)).
End SubjectDefs.
End Subject.

(** ** class OrderItem *)

Module OrderItem.
Section OrderItemDefs.
Context {py : PyLib}.

Definition init (w : World) (orderitem_id : Z) (menu_item : option MenuItem)
    (quantity : Z) : loc * World :=
  let l := fresh (dom (w_items w)) in
  (l, upd_items <[l := {| orderitem_id := orderitem_id;
                          menu_item := menu_item;
                          quantity := quantity |}]> w).

(** return self.menu_item.item_price * self.quantity
    The price is a float and the quantity an int: the int is converted
    first, which is where a huge quantity raises. *)
Definition get_line_total (self : OrderItem) : PyResult float :=
  match menu_item self with
  | None => Raise AttributeError
  | Some m =>
      match float_of_int (quantity self) with
      | Ret q => Ret (fmul (item_price m) q)
      | Raise e => Raise e
      end
  end.
End OrderItemDefs.
End OrderItem.

(** ** class Order *)

Module Order.
Section OrderDefs.
Context {py : PyLib}.

Definition TAX_RATE : float := float_0_20.

Definition init (w : World) (order_id : Z) (order_date : date)
    (order_status : string) : loc * World :=
  let l := fresh (dom (w_orders w)) in
  (l, upd_orders <[l := {| order_id := order_id; order_date := order_date;
                           order_status := order_status;
                           order_items := []; _observers := [] |}]> w).

Definition add_item (w : World) (self : loc) (order_item : loc)
    : option World :=
  o ← w_orders w !! self;
  let w := upd_orders
             <[self := set_order_items (order_items o ++ [order_item]) o]> w in
  Subject.notify w self "Item added to order".

Definition remove_item (w : World) (self : loc) (list_number qty : Z)
    : option World :=
  o ← w_orders w !! self;
  let index := list_number - 1 in
  if bool_decide (0 ≤ index < Z.of_nat (length (order_items o))) then
    l ← order_items o !! Z.to_nat index;
    order_item ← w_items w !! l;
    if bool_decide (qty >= quantity order_item) then
      let w := upd_orders
        <[self := set_order_items
                    (delete (Z.to_nat index) (order_items o)) o]> w in
      Subject.notify w self "Item has been removed from your order"
    else
      let w := upd_items
        <[l := set_quantity (quantity order_item - qty) order_item]> w in
      Subject.notify w self "the item quantity has been updated"
  else Some w.

(** [item.get_line_total() for item in self.order_items], as [sum] consumes
    it: the line totals in order, or the exception of the first line whose
    total raises. *)
Fixpoint line_totals (lines : list OrderItem) : PyResult (list float) :=
  match lines with
  | [] => Ret []
  | item :: rest =>
      match OrderItem.get_line_total item with
      | Raise e => Raise e
      | Ret t =>
          match line_totals rest with
          | Ret ts => Ret (t :: ts)
          | Raise e => Raise e
          end
      end
  end.

Definition get_total (w : World) (self : loc) : option (float * World) :=
  o ← w_orders w !! self;
  lines ← mapM (λ l, w_items w !! l) (order_items o);
  Some (match line_totals lines with
        | Ret ts =>
            let subtotal := fsum ts in
            (fadd subtotal (fmul subtotal TAX_RATE), w)
        | Raise e => (float_0, print (PrintTotalError e) w)
        end).
End OrderDefs.
End Order.

(** ** class Staff *)

Module Staff.
Section StaffDefs.
Context {py : PyLib}.

Definition update_order_status (w : World) (order : loc)
    (new_status : string) : option World :=
  o ← w_orders w !! order;
  let w := upd_orders <[order := set_order_status new_status o]> w in
  Subject.notify w order ("Order status updated to '" ++ new_status ++ "'").
End StaffDefs.
End Staff.

(** ** class Bill *)

Module Bill.
Section BillDefs.
Context {py : PyLib}.

Definition init (w : World) (bill_id : Z) (order : loc)
    : option (loc * World) :=
  '(total, w) ← Order.get_total w order;
  let b := fresh (dom (w_bills w)) in
  Some (b, upd_bills <[b := {| bill_id := bill_id; order := order;
                               bill_total := total |}]> w).
End BillDefs.
End Bill.

(** ** class Payment *)

Module Payment.
Section PaymentDefs.
Context {py : PyLib}.

Definition valid_method (m : string) : bool :=
  bool_decide (upper m ∈ ["CASH"; "CARD"]).

Definition prompt : string :=
  "Invalid payment method. Please enter 'Cash' or 'Card': ".

(** while self.payment_method.upper() not in ["CASH", "CARD"]:
        self.payment_method = input(...)
    [input] prints its prompt, then takes the next line of [inp] or
    raises [EOFError] when there is none. *)
Fixpoint ask_method (method : string) (inp : list string)
    (out : list Output) : PyResult unit * string * list string * list Output :=
  if valid_method method then (Ret (), method, inp, out)
  else
    match inp with
    | [] => (Raise EOFError, method, [], out ++ [Print prompt])
    | line :: rest => ask_method line rest (out ++ [Print prompt])
    end.

Definition process_payment (self : Payment) (w : World)
    : PyResult unit * Payment * World :=
  if fle_0 (payment_amount self) then
    (Ret (), self,
     print (Print "Invalid payment amount. Cannot process payment.") w)
  else
    let '(r, method, inp, out) :=
      ask_method (payment_method self) (w_stdin w) [] in
    let self := set_payment_method method self in
    let w := foldl (λ w o, print o w) (set_stdin inp w) out in
    match r with
    | Raise e => (Raise e, self, w)
    | Ret _ =>
        (Ret (), self,
         print (PrintPayment (payment_amount self) (payment_method self)) w)
    end.
End PaymentDefs.
End Payment.

(** ** class Menu *)

Module Menu.
Section MenuDefs.
Context {py : PyLib}.

Definition init : Menu := {| items := [] |}.

Definition add_item (self : Menu) (item : MenuItem) : Menu :=
  {| items := items self ++ [item] |}.

Definition remove_item (self : Menu) (item_id' : Z) : Menu :=
  {| items := filter (λ item, item_id item ≠ item_id') (items self) |}.

Fixpoint find_by_id (l : list MenuItem) (item_id' : Z) : option MenuItem :=
  match l with
  | [] => None
  | item :: rest =>
      if bool_decide (item_id item = item_id') then Some item
      else find_by_id rest item_id'
  end.

Definition get_item_by_id (self : Menu) (item_id' : Z) : option MenuItem :=
  find_by_id (items self) item_id'.
End MenuDefs.
End Menu.

(** ** Well-formed worlds and derived notions *)

Section Derived.
Context {py : PyLib}.

(** Every line of every order refers to an allocated [OrderItem]: Python
    references never dangle. *)
Definition wf (w : World) : Prop :=
  ∀ o ord, w_orders w !! o = Some ord →
    Forall (λ l, is_Some (w_items w !! l)) (order_items ord).

(** The [OrderItem] objects an order currently lists, in order. *)
Definition current_lines (w : World) (o : loc) : option (list OrderItem) :=
  ord ← w_orders w !! o;
  mapM (λ l, w_items w !! l) (order_items ord).

(** The calls of [update] that one [notify(message)] over the subscriber
    list [obs] consists of. *)
Definition calls_of (message : string) (obs : list Observer)
    : list (Observer * string) :=
  map (λ ob, (ob, message)) obs.

(** What one [notify(message)] makes the subscribers print. *)
Definition prints_of (message : string) (obs : list Observer) : list Output :=
  omap (λ ob, match ob with
              | BaseObserver _ => None
              | OrderObserver _ => Some (Print ("[Notification] " ++ message))
              end) obs.

(** How many of the calls in [calls] are [ob.update(message)], and how many
    times [ob] occurs in a subscriber list. *)
Definition times_called (ob : Observer) (message : string)
    (calls : list (Observer * string)) : nat :=
  length (filter (λ c, c = (ob, message)) calls).

Definition attachments (ob : Observer) (obs : list Observer) : nat :=
  length (filter (λ x, x = ob) obs).

(** ** Operations on an order, as a caller can issue them after a bill *)

Inductive OrderOp :=
  | OpNewItem (orderitem_id : Z) (menu_item : option MenuItem) (quantity : Z)
  | OpAttach (o : loc) (ob : Observer)
  | OpAddItem (o : loc) (order_item : loc)
  | OpRemoveItem (o : loc) (list_number qty : Z)
  | OpUpdateStatus (o : loc) (new_status : string)
  | OpNewBill (bill_id : Z) (o : loc).

Definition run_op (w : World) (op : OrderOp) : option World :=
  match op with
  | OpNewItem i m q => Some (snd (OrderItem.init w i m q))
  | OpAttach o ob => Subject.attach w o ob
  | OpAddItem o l => Order.add_item w o l
  | OpRemoveItem o n q => Order.remove_item w o n q
  | OpUpdateStatus o s => Staff.update_order_status w o s
  | OpNewBill i o => snd <$> Bill.init w i o
  end.

Fixpoint run_ops (w : World) (ops : list OrderOp) : option World :=
  match ops with
  | [] => Some w
  | op :: rest => w' ← run_op w op; run_ops w' rest
  end.

(** The references an operation is given are live: the order exists and,
    for [add_item], so does the line object. *)
Definition op_ok (w : World) (op : OrderOp) : Prop :=
  match op with
  | OpNewItem _ _ _ => True
  | OpAttach o _ | OpRemoveItem o _ _ | OpUpdateStatus o _ | OpNewBill _ o =>
      is_Some (w_orders w !! o)
  | OpAddItem o l => is_Some (w_orders w !! o) ∧ is_Some (w_items w !! l)
  end.

End Derived.

(** ** Presentation: display_order, generate_bill, Menu.display,
       Customer.place_order *)

(** The newline character of the "\n" escapes. *)
Definition nl : string := String (ascii_of_nat 10) EmptyString.

(** [f"{x}"] for an attribute that may be [None]. *)
Definition str_opt (s : option string) : string := default "None" s.

Record Customer := { customer_id : Z; customer_name : string }.

Module Customer.
Section CustomerDefs.
Context {py : PyLib}.

Definition place_order (self : Customer) (w : World) (order : loc)
    : option World :=
  o ← w_orders w !! order;
  if bool_decide (order_items o = []) then
    Some (print (Print "Cannot place an empty order. Add items first.") w)
  else
    let w := print (Print (nl +:+ "Order " +:+ pretty (order_id o)
                           +:+ " placed by " +:+ customer_name self)) w in
    Some (print (Print ("Order completed successfully!" +:+ nl)) w).
End CustomerDefs.
End Customer.

Section Presentation.
Context {py : PyLib}.

(** A loop that prints one line per order line; [text i item] is the text
    of the [i]-th line and may raise, which ends the loop at once. *)
Fixpoint print_lines (text : nat → OrderItem → PyResult string) (i : nat)
    (lines : list OrderItem) (w : World) : PyResult unit * World :=
  match lines with
  | [] => (Ret (), w)
  | item :: rest =>
      match text i item with
      | Ret s => print_lines text (S i) rest (print (Print s) w)
      | Raise e => (Raise e, w)
      end
  end.

(** The two formatting functions of the Python library that the program
    relies on: [f"{x:.2f}"] and [d.strftime('%d/%m/%Y')]. *)
Variable format_2f : float → string.
Variable strftime : date → string.

(** The line of [display_order] for the [i]-th order line.  On a line
    whose [menu_item] is [None] the [isinstance] test is false and the
    access to [item_name] raises. *)
Definition order_line_text (i : nat) (item : OrderItem) : PyResult string :=
  match menu_item item with
  | None => Raise AttributeError
  | Some (DrinkItem _ name _ size) =>
      match OrderItem.get_line_total item with
      | Ret t => Ret (pretty i +:+ ". " +:+ name +:+ " (" +:+ str_opt size +:+ ") x"
                      +:+ pretty (quantity item) +:+ " - £" +:+ format_2f t)
      | Raise e => Raise e
      end
  | Some (FoodItem _ name _) =>
      match OrderItem.get_line_total item with
      | Ret t => Ret (pretty i +:+ ". " +:+ name +:+ " x"
                      +:+ pretty (quantity item) +:+ " - £" +:+ format_2f t)
      | Raise e => Raise e
      end
  end.

Definition display_order (w : World) (self : loc)
    : option (PyResult unit * World) :=
  o ← w_orders w !! self;
  if bool_decide (order_items o = []) then
    Some (Ret (), print (Print (nl +:+ "Order is currently empty." +:+ nl)) w)
  else
    lines ← mapM (λ l, w_items w !! l) (order_items o);
    let w := print (Print (nl +:+ "Your order:")) w in
    match print_lines order_line_text 1 lines w with
    | (Raise e, w) => Some (Raise e, w)
    | (Ret _, w) =>
        '(total, w) ← Order.get_total w self;
        Some (Ret (), print (Print ("Order Total (including VAT): £"
                                    +:+ format_2f total +:+ nl)) w)
    end.

(** The line of [generate_bill] for one order line. *)
Definition bill_line_text (i : nat) (item : OrderItem) : PyResult string :=
  match menu_item item with
  | None => Raise AttributeError
  | Some m =>
      let line := item_name m in
      let line := match m with
                  | DrinkItem _ _ _ size => line +:+ " (" +:+ str_opt size +:+ ")"
                  | FoodItem _ _ _ => line
                  end in
      match OrderItem.get_line_total item with
      | Ret t => Ret (line +:+ " x" +:+ pretty (quantity item) +:+ " - £"
                      +:+ format_2f t)
      | Raise e => Raise e
      end
  end.

Definition generate_bill (w : World) (self : loc)
    : option (PyResult unit * World) :=
  b ← w_bills w !! self;
  o ← w_orders w !! order b;
  lines ← mapM (λ l, w_items w !! l) (order_items o);
  let w := print (Print (nl +:+ "===== Cafe Bill =====")) w in
  let w := print (Print ("Bill ID: " +:+ pretty (bill_id b))) w in
  let w := print (Print ("Order ID: " +:+ pretty (order_id o))) w in
  let w := print (Print ("Date: " +:+ strftime (order_date o))) w in
  let w := print (Print "---------------------") w in
  match print_lines bill_line_text 0 lines w with
  | (Raise e, w) => Some (Raise e, w)
  | (Ret _, w) =>
      let w := print (Print "---------------------") w in
      let w := print (Print ("Total (including VAT): £"
                             +:+ format_2f (bill_total b))) w in
      Some (Ret (), print (Print ("=====================" +:+ nl)) w)
  end.

(** The line of [Menu.display] for one catalog item. *)
Definition menu_line_text (item : MenuItem) : string :=
  match item with
  | FoodItem id name price =>
      pretty id +:+ ". " +:+ name +:+ " (£" +:+ format_2f price +:+ ") - Food"
  | DrinkItem id name price size =>
      pretty id +:+ ". " +:+ name +:+ " (£" +:+ format_2f price
        +:+ ") - Drink [" +:+ str_opt size +:+ "]"
  end.

Definition Menu_display (self : Menu) (w : World) : World :=
  if bool_decide (items self = []) then print (Print "Menu is empty.") w
  else
    let w := print (Print (nl +:+ "===== Cafe Menu =====")) w in
    let w := foldl (λ w item, print (Print (menu_line_text item)) w)
               w (items self) in
    print (Print "=====================") w.
End Presentation.

(** ** Further derived notions *)

Section MoreDerived.
Context {py : PyLib}.

(** Every allocated order line has a positive quantity. *)
Definition positive_quantities (w : World) : Prop :=
  ∀ l it, w_items w !! l = Some it → 0 < quantity it.

(** An operation that creates a line gives it a positive quantity (what the
    interactive loop checks before it builds an [OrderItem]). *)
Definition op_positive (op : OrderOp) : Prop :=
  match op with
  | OpNewItem _ _ q => 0 < q
  | _ => True
  end.

(** The lines that one [notify(message)] prints: one per attached
    [OrderObserver]. *)
Definition is_OrderObserver (ob : Observer) : bool :=
  match ob with OrderObserver _ => true | BaseObserver _ => false end.

(** The texts that the line loop of [display_order] / [generate_bill] gets
    to print: those of the lines before the first one whose text raises. *)
Fixpoint line_texts (text : nat → OrderItem → PyResult string) (i : nat)
    (lines : list OrderItem) : list string :=
  match lines with
  | [] => []
  | item :: rest =>
      match text i item with
      | Ret s => s :: line_texts text (S i) rest
      | Raise _ => []
      end
  end.

(** A payment for the stored total of a bill, as the main script builds
    it. *)
Definition payment_for (payment_id method : string) (b : Bill) : Payment :=
  {| payment_id := payment_id; payment_method := method;
     payment_amount := bill_total b |}.

(** [t] is the product price * quantity of the line [it], as
    [get_line_total] computes it. *)
Definition line_product (it : OrderItem) (t : float) : Prop :=
  ∃ m q, menu_item it = Some m
    ∧ float_of_int (quantity it) = Ret q
    ∧ t = fmul (item_price m) q.

(** The method test of [process_payment]. *)
Definition cash_or_card (method : string) : Prop :=
  upper method = "CASH"%string ∨ upper method = "CARD"%string.
End MoreDerived.

(** ** The instance used in the examples

    Floats are taken as exact rationals with exact sums and products, the
    conversion from [int] raises from the first integer that rounds beyond
    the largest binary64 number, and the case mappings act on the ASCII
    letters.  On the inputs of the examples (prices with two decimals,
    small quantities, ASCII text) the values agree with what the program
    prints. *)

Definition upper_ascii (c : ascii) : ascii :=
  let n := nat_of_ascii c in
  if ((97 <=? n) && (n <=? 122))%nat then ascii_of_nat (n - 32) else c.

Definition lower_ascii (c : ascii) : ascii :=
  let n := nat_of_ascii c in
  if ((65 <=? n) && (n <=? 90))%nat then ascii_of_nat (n + 32) else c.

Fixpoint ascii_upper (s : string) : string :=
  match s with
  | EmptyString => EmptyString
  | String c r => String (upper_ascii c) (ascii_upper r)
  end.

Fixpoint ascii_lower (s : string) : string :=
  match s with
  | EmptyString => EmptyString
  | String c r => String (lower_ascii c) (ascii_lower r)
  end.

(** [float(z)] is defined for |z| < 2^1024 - 2^970, the first integer that
    rounds beyond the largest binary64 number.  The bound is tested on the
    bits of |z| from the 970th up: they must stay below fifty-four ones. *)
Definition float_fits (z : Z) : bool :=
  Z.log2 (Z.shiftr (Z.abs z) 970 + 1) <? 54.

Definition exact_of_int (z : Z) : PyResult Qc :=
  if float_fits z then Ret (Q2Qc (inject_Z z)) else Raise OverflowError.

Global Instance ExactLib : PyLib := {|
  float := Qc;
  float_0 := 0%Qc;
  float_0_20 := Q2Qc (20 # 100);
  fadd := Qcplus;
  fmul := Qcmult;
  float_of_int := exact_of_int;
  fsum := foldl Qcplus 0%Qc;
  fle_0 := λ x, bool_decide (x ≤ 0)%Qc;
  upper := ascii_upper;
  lower := ascii_lower;
  fsum_nil := eq_refl;
  total_of_nothing := eq_refl;
  fle_0_zero := eq_refl;
|}.

(** ** The specification's reading of the total *)

(** Python's [round(x, 2)] on exact rationals: nearest multiple of 1/100,
    ties to the even neighbour. *)
Definition round_half_even (q : Qc) : Z :=
  let n := Qnum (this q) in
  let d := Z.pos (Qden (this q)) in
  let fl := n / d in
  let r2 := 2 * (n mod d) in
  if r2 <? d then fl
  else if d <? r2 then fl + 1
  else if Z.even fl then fl else fl + 1.

Definition round2 (q : Qc) : Qc :=
  Q2Qc (round_half_even (q * Q2Qc 100)%Qc # 100).

(** sum over the lines of price * quantity *)
Definition line_subtotal (it : OrderItem) : Qc :=
  (from_option item_price 0 (menu_item it) * Q2Qc (inject_Z (quantity it)))%Qc.

Definition subtotal (lines : list OrderItem) : Qc :=
  foldr (λ it acc, line_subtotal it + acc)%Qc 0%Qc lines.

(** The total as the specification words it:
    round(sum(price_i * qty_i) * 1.20, 2). *)
Definition spec_total (lines : list OrderItem) : Qc :=
  round2 (subtotal lines * Q2Qc (120 # 100))%Qc.

(** Exact two-decimal formatting of a rational (ties to even), and the
    day/month/year text of a date with a four-digit year: the formatting
    functions used in the examples. *)
Definition two_digits (n : Z) : string :=
  if n <? 10 then "0" +:+ pretty n else pretty n.

Definition format_2f_exact (q : Qc) : string :=
  let neg := bool_decide (q < 0)%Qc in
  let cents := round_half_even ((if neg then - q else q) * Q2Qc 100)%Qc in
  (if neg then "-" else "") +:+ pretty (cents / 100) +:+ "."
    +:+ two_digits (cents mod 100).

Definition strftime_dmy (d : date) : string :=
  two_digits (day d) +:+ "/" +:+ two_digits (month d) +:+ "/" +:+ pretty (year d).

(** ** Concrete worlds used in the examples *)

Definition today : date := {| year := 2024; month := 1; day := 15 |}.

Definition chuna : MenuItem := FoodItem 1 "Chuna Sandwich" (Q2Qc (350 # 100)).
Definition latte : MenuItem :=
  DrinkItem 2 "Latte" (Q2Qc (280 # 100)) (Some "Medium").
Definition brownie : MenuItem := FoodItem 3 "Brownie" (Q2Qc (199 # 100)).
Definition cookie : MenuItem := FoodItem 4 "Cookie" (Q2Qc (150 # 100)).

(** An order with one attached [OrderObserver] and no line. *)
Definition w_pending : World :=
  let '(o, w) := Order.init empty_world 1 today "Pending" in
  default w (Subject.attach w o (OrderObserver 0)).

(** Two units of the 3.50 sandwich on order 1 (total 8.40). *)
Definition w_two_chuna : World :=
  let '(l, w) := OrderItem.init w_pending 1 (Some chuna) 2 in
  default w (Order.add_item w 1%positive l).

(** One 1.99 brownie on order 1. *)
Definition w_brownie : World :=
  let '(l, w) := OrderItem.init w_pending 1 (Some brownie) 1 in
  default w (Order.add_item w 1%positive l).

(** A line whose item reference is [None], after a good one. *)
Definition w_malformed : World :=
  let '(l, w) := OrderItem.init w_two_chuna 2 None 3 in
  default w (Order.add_item w 1%positive l).

(** The same observer object attached twice. *)
Definition w_twice : World :=
  default w_pending (Subject.attach w_pending 1%positive (OrderObserver 0)).

(** Order 1 of [w_two_chuna] billed, then grown by two 1.50 cookies and
    marked completed. *)
Definition w_billed : World :=
  default w_two_chuna (snd <$> Bill.init w_two_chuna 1 1%positive).

Definition later_ops : list OrderOp :=
  [OpNewItem 2 (Some cookie) 2; OpAddItem 1%positive 2%positive;
   OpUpdateStatus 1%positive "Completed"].

Definition w_later : World := default w_billed (run_ops w_billed later_ops).

(** A line object that is allocated but not yet on any order. *)
Definition w_loose : World :=
  snd (OrderItem.init w_pending 1 (Some chuna) 2).

(** The catalog of the unit tests, and a second item under id 1. *)
Definition menu_two : Menu :=
  Menu.add_item (Menu.add_item Menu.init chuna) latte.

Definition tuna_melt : MenuItem := FoodItem 1 "Tuna Melt" (Q2Qc 4).

(** A payment of 5.00 by cheque, with "card" typed at the prompt. *)
Definition pay_cheque : Payment :=
  {| payment_id := "PAY001"; payment_method := "cheque";
     payment_amount := Q2Qc 5 |}.

Definition w_card_typed : World := set_stdin ["card"] empty_world.

(** The two payments of the specification's scenario. *)
Definition pay_zero : Payment :=
  {| payment_id := "PAY001"; payment_method := "Cash";
     payment_amount := Q2Qc 0 |}.

Definition pay_cash : Payment :=
  {| payment_id := "PAY001"; payment_method := "cash";
     payment_amount := Q2Qc 5 |}.

(** ** Further concrete worlds *)

(** A second order that lists the very line object of order 1. *)
Definition w_shared : World :=
  let '(o2, w) := Order.init w_two_chuna 2 today "Pending" in
  default w (Order.add_item w o2 1%positive).

(** Order 1 with a sandwich line and a latte line. *)
Definition w_two_lines : World :=
  let '(l, w) := OrderItem.init w_two_chuna 2 (Some latte) 1 in
  default w (Order.add_item w 1%positive l).

Definition alice : Customer := {| customer_id := 1; customer_name := "Alice" |}.

(** Order 1 of [w_two_chuna] and a latte line that is not on it yet. *)
Definition w_latte_loose : World :=
  snd (OrderItem.init w_two_chuna 2 (Some latte) 1).

(** Order 1 of [w_two_chuna] with a second line whose quantity is too
    large for a float. *)
Definition w_googol : World :=
  let '(l, w) := OrderItem.init w_two_chuna 9 (Some chuna) (10 ^ 400) in
  default w (Order.add_item w 1%positive l).

(** * Properties *)

(** ** Notification delivery *)

Section Deliver.
Context {py : PyLib}.
Variable message : string.

Let deliver (w : World) (obs : list Observer) : World :=
  foldl (λ w observer, update observer message w) w obs.

Lemma deliver_world (obs : list Observer) (w : World) :
  deliver w obs =
    {| w_items := w_items w; w_orders := w_orders w; w_bills := w_bills w;
       w_updates := w_updates w ++ calls_of message obs;
       w_stdout := w_stdout w ++ prints_of message obs;
       w_stdin := w_stdin w |}.
Proof.
  subst deliver. revert w.
  induction obs as [|ob obs IH]; intros w; simpl.
  - rewrite !app_nil_r. by destruct w.
  - rewrite IH. destruct ob; simpl; by rewrite <- !app_assoc.
Qed.
End Deliver.

Lemma notify_world {py : PyLib}
    (w : World) (self : loc) (message : string) (o : Order) :
  w_orders w !! self = Some o →
  Subject.notify w self message =
    Some {| w_items := w_items w; w_orders := w_orders w;
            w_bills := w_bills w;
            w_updates := w_updates w ++ calls_of message (_observers o);
            w_stdout := w_stdout w ++ prints_of message (_observers o);
            w_stdin := w_stdin w |}.
Proof.
  intros Ho. unfold Subject.notify. rewrite Ho. simpl.
  by rewrite deliver_world.
Qed.

(** Looking up an order right after it was written. *)
Lemma upd_orders_lookup {py : PyLib} (w : World) (self : loc) (o : Order) :
  w_orders (upd_orders <[self := o]> w) !! self = Some o.
Proof. simpl. apply lookup_insert_eq. Qed.

(** ** Resolving the lines of an order *)

Lemma mapM_lookup_is_Some {py : PyLib}
    (m : gmap loc OrderItem) (ls : list loc) :
  Forall (λ l, is_Some (m !! l)) ls →
  is_Some (mapM (λ l, m !! l) ls).
Proof.
  intros H. apply mapM_is_Some. exact H.
Qed.

Lemma wf_current_lines {py : PyLib} (w : World) (o : loc) (ord : Order) :
  wf w → w_orders w !! o = Some ord → is_Some (current_lines w o).
Proof.
  intros Hwf Ho. unfold current_lines. rewrite Ho. simpl.
  apply mapM_lookup_is_Some. by apply (Hwf o).
Qed.

Lemma get_total_lines {py : PyLib} (w : World) (o : loc)
    (lines : list OrderItem) :
  current_lines w o = Some lines →
  Order.get_total w o =
    Some (match Order.line_totals lines with
          | Ret ts => (fadd (fsum ts) (fmul (fsum ts) Order.TAX_RATE), w)
          | Raise e => (float_0, print (PrintTotalError e) w)
          end).
Proof.
  unfold current_lines, Order.get_total.
  destruct (w_orders w !! o) as [ord|]; simpl; [|done].
  intros ->. done.
Qed.

(** ** The order total *)

Lemma get_line_total_product {py : PyLib} (it : OrderItem) (t : float) :
  OrderItem.get_line_total it = Ret t ↔ line_product it t.
Proof.
  unfold OrderItem.get_line_total, line_product. split.
  - destruct (menu_item it) as [m|]; [|done].
    destruct (float_of_int (quantity it)) as [q|e]; [|done].
    intros [= <-]. by exists m, q.
  - intros (m & q & -> & -> & ->). done.
Qed.

Lemma line_totals_products {py : PyLib} (lines : list OrderItem)
    (ts : list float) :
  Forall2 line_product lines ts → Order.line_totals lines = Ret ts.
Proof.
  induction 1 as [|it t lines ts Ht _ IH]; simpl; [done|].
  apply get_line_total_product in Ht. by rewrite Ht, IH.
Qed.

Lemma get_total_products {py : PyLib} (w : World) (o : loc)
    (lines : list OrderItem) (ts : list float) :
  current_lines w o = Some lines →
  Forall2 line_product lines ts →
  Order.get_total w o
    = Some (fadd (fsum ts) (fmul (fsum ts) Order.TAX_RATE), w).
Proof.
  intros Hl Hts.
  by rewrite (get_total_lines _ _ _ Hl), (line_totals_products _ _ Hts).
Qed.

(** C1 (as amended): for every order whose lines all reference a menu item
    and have a quantity that converts to a float, [get_total] returns
    s + s * 0.20 as the float operations give it, where s is [sum] over the
    products price * quantity of the current lines in order; nothing is
    rounded to two decimals, and the world is left as it was.  For an order
    with no lines the total is 0.0. *)
Theorem C1_total_is_unrounded_sum {py : PyLib} (w : World) (o : loc)
    (lines : list OrderItem) (ts : list float) :
  current_lines w o = Some lines →
  Forall2 line_product lines ts →
  Order.get_total w o
    = Some (fadd (fsum ts) (fmul (fsum ts) Order.TAX_RATE), w)
  ∧ (lines = [] → Order.get_total w o = Some (float_0, w)).
Proof.
  intros Hl Hts.
  pose proof (get_total_products w o lines ts Hl Hts) as Ht.
  split; [exact Ht|].
  intros ->. apply Forall2_nil_inv_l in Hts as ->.
  rewrite Ht, fsum_nil. unfold Order.TAX_RATE.
  by rewrite total_of_nothing.
Qed.

Lemma C1_total_is_unrounded_sum_witness :
  let line := {| orderitem_id := 1; menu_item := Some chuna; quantity := 2 |} in
  let ts := [(Q2Qc (350 # 100) * Q2Qc (inject_Z 2))%Qc] in
  current_lines w_two_chuna 1%positive = Some [line]
  ∧ Forall2 line_product [line] ts
  ∧ Order.get_total w_two_chuna 1%positive
      = Some (fadd (fsum ts) (fmul (fsum ts) Order.TAX_RATE), w_two_chuna)
  ∧ fadd (fsum ts) (fmul (fsum ts) Order.TAX_RATE) = Q2Qc (840 # 100).
Proof.
  intros line ts.
  assert (H1 : current_lines w_two_chuna 1%positive = Some [line])
    by reflexivity.
  assert (H2 : Forall2 line_product [line] ts).
  { repeat constructor. exists chuna, (Q2Qc (inject_Z 2)).
    split; [reflexivity|]. split; [|reflexivity]. by vm_compute. }
  split; [exact H1|]. split; [exact H2|]. split.
  - exact (proj1 (C1_total_is_unrounded_sum w_two_chuna 1%positive _ ts
                    H1 H2)).
  - apply Qc_is_canon. reflexivity.
Defined.

(** C1 (as stated) fails: one 1.99 brownie gives 1.99 + 1.99 * 0.20 = 2.388,
    while the rounded value of the specification is 2.39. *)
Lemma C1_counterexample :
  ∃ lines t,
    current_lines w_brownie 1%positive = Some lines
    ∧ Order.get_total w_brownie 1%positive = Some (t, w_brownie)
    ∧ t = Q2Qc (2388 # 1000)
    ∧ spec_total lines = Q2Qc (239 # 100)
    ∧ t ≠ spec_total lines.
Proof.
  eexists _, _. split; [reflexivity|]. split; [reflexivity|].
  split; [by apply Qc_is_canon|]. split; [by apply Qc_is_canon|].
  intros H. apply (f_equal this) in H. vm_compute in H. discriminate.
Qed.

(** ** Frames: what each operation leaves alone *)

Lemma notify_frame {py : PyLib} (w w' : World) (self : loc) (message : string) :
  Subject.notify w self message = Some w' →
  w_items w' = w_items w ∧ w_orders w' = w_orders w
  ∧ w_bills w' = w_bills w ∧ w_stdin w' = w_stdin w.
Proof.
  unfold Subject.notify.
  destruct (w_orders w !! self) as [o|]; simpl; [|done].
  rewrite deliver_world. by intros [= <-].
Qed.

Lemma get_total_frame {py : PyLib} (w w' : World) (o : loc) (t : float) :
  Order.get_total w o = Some (t, w') →
  w_items w' = w_items w ∧ w_orders w' = w_orders w
  ∧ w_bills w' = w_bills w ∧ w_stdin w' = w_stdin w
  ∧ w_updates w' = w_updates w.
Proof.
  unfold Order.get_total.
  destruct (w_orders w !! o) as [ord|]; simpl; [|done].
  destruct (mapM _ _) as [lines|]; simpl; [|done].
  destruct (Order.line_totals _); by intros [= <- <-].
Qed.

Lemma add_item_bills {py : PyLib} (w w' : World) (o l : loc) :
  Order.add_item w o l = Some w' → w_bills w' = w_bills w.
Proof.
  unfold Order.add_item.
  destruct (w_orders w !! o) as [ord|]; simpl; [|done].
  intros H. by apply notify_frame in H as (_ & _ & -> & _).
Qed.

Lemma remove_item_bills {py : PyLib} (w w' : World) (o : loc) (n qty : Z) :
  Order.remove_item w o n qty = Some w' → w_bills w' = w_bills w.
Proof.
  unfold Order.remove_item.
  destruct (w_orders w !! o) as [ord|]; simpl; [|done].
  case_bool_decide; [|by intros [= <-]].
  destruct (order_items ord !! _) as [l|]; simpl; [|done].
  destruct (w_items w !! l) as [it|]; simpl; [|done].
  case_bool_decide; intros Hn;
    by apply notify_frame in Hn as (_ & _ & -> & _).
Qed.

Lemma update_order_status_bills {py : PyLib}
    (w w' : World) (o : loc) (s : string) :
  Staff.update_order_status w o s = Some w' → w_bills w' = w_bills w.
Proof.
  unfold Staff.update_order_status.
  destruct (w_orders w !! o) as [ord|]; simpl; [|done].
  intros H. by apply notify_frame in H as (_ & _ & -> & _).
Qed.

Lemma attach_bills {py : PyLib} (w w' : World) (o : loc) (ob : Observer) :
  Subject.attach w o ob = Some w' → w_bills w' = w_bills w.
Proof.
  unfold Subject.attach.
  destruct (w_orders w !! o) as [ord|]; simpl; [|done].
  by intros [= <-].
Qed.

(** A new bill goes to a fresh location: bills already issued stay. *)
Lemma bill_init_bills {py : PyLib} (w w' : World) (bill_id : Z) (o b : loc) :
  Bill.init w bill_id o = Some (b, w') →
  ∃ t w0, Order.get_total w o = Some (t, w0)
    ∧ w_bills w !! b = None
    ∧ w_bills w' = <[b := {| bill_id := bill_id; order := o;
                             bill_total := t |}]> (w_bills w).
Proof.
  unfold Bill.init.
  destruct (Order.get_total w o) as [[t w0]|] eqn:Ht; simpl; [|done].
  intros [= <- <-]. exists t, w0. split; [done|].
  apply get_total_frame in Ht as (_ & _ & Hb & _). simpl. rewrite Hb.
  split; [|done].
  apply not_elem_of_dom, is_fresh.
Qed.

Lemma run_op_bills {py : PyLib} (w w' : World) (op : OrderOp) :
  run_op w op = Some w' → w_bills w ⊆ w_bills w'.
Proof.
  destruct op as [i m q|o ob|o l|o n q|o s|i o]; simpl; intros H.
  - by injection H as <-.
  - by rewrite (attach_bills _ _ _ _ H).
  - by rewrite (add_item_bills _ _ _ _ H).
  - by rewrite (remove_item_bills _ _ _ _ _ H).
  - by rewrite (update_order_status_bills _ _ _ _ H).
  - destruct (Bill.init w i o) as [[b w1]|] eqn:Hb; simpl in H; [|done].
    injection H as <-.
    apply bill_init_bills in Hb as (t & w0 & _ & Hfresh & ->).
    by apply insert_subseteq.
Qed.

Lemma run_ops_bills {py : PyLib} (ops : list OrderOp) (w w' : World) :
  run_ops w ops = Some w' → w_bills w ⊆ w_bills w'.
Proof.
  revert w. induction ops as [|op ops IH]; intros w; simpl.
  - by intros [= <-].
  - destruct (run_op w op) as [w1|] eqn:H1; simpl; [|done].
    intros H2. transitivity (w_bills w1).
    + by apply run_op_bills in H1.
    + by apply IH.
Qed.

(** C2: a bill stores the order's total as it is when the bill is
    constructed, and whatever is done afterwards (new lines, add_item,
    remove_item, status updates, new observers, further bills) the stored
    total of that bill is still the total the order had at construction. *)
Theorem C2_bill_total_frozen {py : PyLib}
    (w w0 w1 : World) (bill_id : Z) (o b : loc)
    (t : float) :
  Order.get_total w o = Some (t, w0) →
  Bill.init w bill_id o = Some (b, w1) →
  ∀ ops w2, run_ops w1 ops = Some w2 →
    ∃ bill, w_bills w2 !! b = Some bill
      ∧ bill_total bill = t ∧ order bill = o.
Proof.
  intros Ht Hb ops w2 Hops.
  apply bill_init_bills in Hb as (t' & w0' & Ht' & _ & Hw1).
  rewrite Ht in Ht'. injection Ht' as <- <-.
  exists {| bill_id := bill_id; order := o; bill_total := t |}.
  split; [|done].
  apply (lookup_weaken (w_bills w1)); [|by eapply run_ops_bills].
  rewrite Hw1. apply lookup_insert_eq.
Qed.

(** The scenario of the specification: a bill over a total of 8.40, then
    two 1.50 cookies are added and the status is updated; the order now
    totals 12.00 and the bill still says 8.40. *)
Lemma C2_bill_total_frozen_witness :
  ∃ t t2,
    Order.get_total w_two_chuna 1%positive = Some (t, w_two_chuna)
    ∧ t = Q2Qc (840 # 100)
    ∧ Bill.init w_two_chuna 1 1%positive = Some (1%positive, w_billed)
    ∧ run_ops w_billed later_ops = Some w_later
    ∧ Order.get_total w_later 1%positive = Some (t2, w_later)
    ∧ t2 = Q2Qc 12
    ∧ ∃ bill, w_bills w_later !! 1%positive = Some bill
        ∧ bill_total bill = t ∧ order bill = 1%positive.
Proof.
  eexists _, _.
  split; [reflexivity|]. split; [by apply Qc_is_canon|].
  split; [reflexivity|]. split; [reflexivity|].
  split; [reflexivity|]. split; [by apply Qc_is_canon|].
  eapply (C2_bill_total_frozen w_two_chuna w_two_chuna w_billed 1 1%positive
            1%positive _ _ _ later_ops w_later).
  Unshelve. all: reflexivity.
Defined.

(** ** Adding and removing lines *)

Lemma add_item_world {py : PyLib} (w : World) (o l : loc) (ord : Order) :
  w_orders w !! o = Some ord →
  Order.add_item w o l =
    Some {| w_items := w_items w;
            w_orders := <[o := set_order_items (order_items ord ++ [l]) ord]>
                          (w_orders w);
            w_bills := w_bills w;
            w_updates := w_updates w
                         ++ calls_of "Item added to order" (_observers ord);
            w_stdout := w_stdout w
                        ++ prints_of "Item added to order" (_observers ord);
            w_stdin := w_stdin w |}.
Proof.
  intros Ho. unfold Order.add_item. rewrite Ho. simpl.
  by rewrite (notify_world _ _ _ _ (upd_orders_lookup _ _ _)).
Qed.

(** The line is dropped when at least its whole quantity is removed. *)
Lemma remove_item_pop {py : PyLib}
    (w : World) (o l : loc) (ord : Order) (n qty : Z)
    (it : OrderItem) :
  w_orders w !! o = Some ord →
  1 ≤ n ≤ Z.of_nat (length (order_items ord)) →
  order_items ord !! Z.to_nat (n - 1) = Some l →
  w_items w !! l = Some it →
  qty >= quantity it →
  let message := "Item has been removed from your order"%string in
  Order.remove_item w o n qty =
    Some {| w_items := w_items w;
            w_orders :=
              <[o := set_order_items
                       (delete (Z.to_nat (n - 1)) (order_items ord)) ord]>
                (w_orders w);
            w_bills := w_bills w;
            w_updates := w_updates w ++ calls_of message (_observers ord);
            w_stdout := w_stdout w ++ prints_of message (_observers ord);
            w_stdin := w_stdin w |}.
Proof.
  intros Ho Hn Hl Hit Hq message. unfold Order.remove_item.
  rewrite Ho. simpl. rewrite bool_decide_eq_true_2 by lia.
  rewrite Hl. simpl. rewrite Hit. simpl.
  rewrite bool_decide_eq_true_2 by done.
  by rewrite (notify_world _ _ _ _ (upd_orders_lookup _ _ _)).
Qed.

(** Otherwise the quantity of the [OrderItem] object is reduced in place. *)
Lemma remove_item_decrement {py : PyLib}
    (w : World) (o l : loc) (ord : Order) (n qty : Z)
    (it : OrderItem) :
  w_orders w !! o = Some ord →
  1 ≤ n ≤ Z.of_nat (length (order_items ord)) →
  order_items ord !! Z.to_nat (n - 1) = Some l →
  w_items w !! l = Some it →
  qty < quantity it →
  let message := "the item quantity has been updated"%string in
  Order.remove_item w o n qty =
    Some {| w_items := <[l := set_quantity (quantity it - qty) it]> (w_items w);
            w_orders := w_orders w;
            w_bills := w_bills w;
            w_updates := w_updates w ++ calls_of message (_observers ord);
            w_stdout := w_stdout w ++ prints_of message (_observers ord);
            w_stdin := w_stdin w |}.
Proof.
  intros Ho Hn Hl Hit Hq message. unfold Order.remove_item.
  rewrite Ho. simpl. rewrite bool_decide_eq_true_2 by lia.
  rewrite Hl. simpl. rewrite Hit. simpl.
  rewrite bool_decide_eq_false_2 by lia.
  assert (Ho' : w_orders (upd_items
      <[l := set_quantity (quantity it - qty) it]> w) !! o = Some ord) by done.
  by rewrite (notify_world _ _ _ _ Ho').
Qed.

(** C3: at an in-range 1-based position, removing at least the line's
    quantity deletes the line (one line fewer, the other lines kept in
    order) and every observer is sent "Item has been removed from your
    order"; removing less leaves the line sequence as it is, lowers that
    line's quantity by [qty], and every observer is sent "the item quantity
    has been updated". *)
Theorem C3_remove_item_in_range {py : PyLib}
    (w : World) (o l : loc) (ord : Order)
    (n qty : Z) (it : OrderItem) :
  w_orders w !! o = Some ord →
  1 ≤ n ≤ Z.of_nat (length (order_items ord)) →
  order_items ord !! Z.to_nat (n - 1) = Some l →
  w_items w !! l = Some it →
  ∃ w', Order.remove_item w o n qty = Some w'
    ∧ (qty >= quantity it →
        (∃ ord', w_orders w' !! o = Some ord'
           ∧ order_items ord' = delete (Z.to_nat (n - 1)) (order_items ord)
           ∧ S (length (order_items ord')) = length (order_items ord))
        ∧ w_items w' = w_items w
        ∧ w_updates w' = w_updates w
            ++ calls_of "Item has been removed from your order"
                 (_observers ord))
    ∧ (qty < quantity it →
        w_orders w' = w_orders w
        ∧ (∃ it', w_items w' !! l = Some it'
             ∧ quantity it' = quantity it - qty
             ∧ menu_item it' = menu_item it)
        ∧ w_updates w' = w_updates w
            ++ calls_of "the item quantity has been updated"
                 (_observers ord)).
Proof.
  intros Ho Hn Hl Hit.
  destruct (decide (qty >= quantity it)) as [Hq|Hq].
  - eexists. split; [by apply (remove_item_pop w o l ord n qty it)|].
    split; [|lia]. intros _. simpl. split; [|done].
    eexists. split; [apply lookup_insert_eq|]. simpl. split; [done|].
    rewrite length_delete by eauto.
    apply lookup_lt_Some in Hl. lia.
  - eexists. split; [apply (remove_item_decrement w o l ord n qty it);
                     (done || lia)|].
    split; [done|]. intros _. simpl. split; [done|]. split; [|done].
    eexists. split; [apply lookup_insert_eq|]. done.
Qed.

(** C5: at a position outside 1 .. len(order_items), [remove_item] returns
    normally and the whole world (lines, quantities, status, observers'
    calls, terminal output) is what it was. *)
Theorem C5_remove_item_out_of_range {py : PyLib}
    (w : World) (o : loc) (ord : Order)
    (n qty : Z) :
  w_orders w !! o = Some ord →
  n < 1 ∨ Z.of_nat (length (order_items ord)) < n →
  Order.remove_item w o n qty = Some w.
Proof.
  intros Ho Hn. unfold Order.remove_item. rewrite Ho. simpl.
  by rewrite bool_decide_eq_false_2 by lia.
Qed.

(** C8: [add_item] puts the line at the end of the order, which then has
    one line more; removing it at once, at that last position and with the
    line's own quantity, gives back the line sequence the order had, hence
    its line count. *)
Theorem C8_add_then_remove {py : PyLib} (w : World) (o l : loc) (ord : Order)
    (it : OrderItem) :
  w_orders w !! o = Some ord →
  w_items w !! l = Some it →
  ∃ w1 w2 ord1 ord2,
    Order.add_item w o l = Some w1
    ∧ w_orders w1 !! o = Some ord1
    ∧ order_items ord1 = order_items ord ++ [l]
    ∧ length (order_items ord1) = S (length (order_items ord))
    ∧ w_items w1 !! l = Some it
    ∧ Order.remove_item w1 o (Z.of_nat (length (order_items ord1)))
        (quantity it) = Some w2
    ∧ w_orders w2 !! o = Some ord2
    ∧ order_items ord2 = order_items ord
    ∧ length (order_items ord2) = length (order_items ord).
Proof.
  intros Ho Hit.
  set (ord1 := set_order_items (order_items ord ++ [l]) ord).
  set (k := length (order_items ord)).
  assert (Hlen1 : length (order_items ord1) = S k).
  { simpl. rewrite length_app. simpl. unfold k. lia. }
  assert (Hk : Z.to_nat (Z.of_nat (length (order_items ord1)) - 1) = k)
    by lia.
  exists
    {| w_items := w_items w;
       w_orders := <[o := ord1]> (w_orders w);
       w_bills := w_bills w;
       w_updates := w_updates w
                    ++ calls_of "Item added to order" (_observers ord);
       w_stdout := w_stdout w
                   ++ prints_of "Item added to order" (_observers ord);
       w_stdin := w_stdin w |}.
  eexists _, ord1, _.
  split; [by apply add_item_world|].
  split; [apply lookup_insert_eq|].
  split; [done|]. split; [exact Hlen1|]. split; [done|].
  split.
  - apply (remove_item_pop _ o l ord1 _ _ it).
    + apply lookup_insert_eq.
    + lia.
    + rewrite Hk. unfold k. simpl. by rewrite list_lookup_middle.
    + done.
    + lia.
  - cbn [w_orders]. split; [apply lookup_insert_eq|].
    cbn [order_items set_order_items]. fold ord1. rewrite Hk.
    assert (delete k (order_items ord ++ [l]) = order_items ord) as Hdel.
    { unfold k. rewrite delete_middle. apply app_nil_r. }
    change (order_items ord1) with (order_items ord ++ [l]).
    rewrite Hdel. done.
Qed.

Lemma C3_remove_item_in_range_witness :
  let line := {| orderitem_id := 1; menu_item := Some chuna; quantity := 2 |} in
  ∃ ord,
    w_orders w_two_chuna !! 1%positive = Some ord
    ∧ 1 ≤ 1 ≤ Z.of_nat (length (order_items ord))
    ∧ order_items ord !! Z.to_nat (1 - 1) = Some 1%positive
    ∧ w_items w_two_chuna !! 1%positive = Some line
    ∧ ∃ w', Order.remove_item w_two_chuna 1%positive 1 1 = Some w'
        ∧ w_orders w' = w_orders w_two_chuna
        ∧ (∃ it', w_items w' !! 1%positive = Some it' ∧ quantity it' = 2 - 1
             ∧ menu_item it' = Some chuna)
        ∧ w_updates w' = w_updates w_two_chuna
            ++ [(OrderObserver 0, "the item quantity has been updated"%string)].
Proof.
  intros line. eexists.
  assert (H1 : w_orders w_two_chuna !! 1%positive
    = Some {| order_id := 1; order_date := today; order_status := "Pending";
              order_items := [1%positive];
              _observers := [OrderObserver 0] |}) by reflexivity.
  assert (H4 : w_items w_two_chuna !! 1%positive = Some line) by reflexivity.
  split; [exact H1|]. split; [simpl; lia|]. split; [reflexivity|].
  split; [exact H4|].
  destruct (C3_remove_item_in_range w_two_chuna 1%positive 1%positive _ 1 1
              line H1 ltac:(simpl; lia) eq_refl H4) as (w' & Hr & _ & Hdec).
  exists w'. split; [exact Hr|]. apply Hdec. simpl. lia.
Defined.

Lemma C5_remove_item_out_of_range_witness :
  ∃ ord,
    w_orders w_two_chuna !! 1%positive = Some ord
    ∧ (5 < 1 ∨ Z.of_nat (length (order_items ord)) < 5)
    ∧ Order.remove_item w_two_chuna 1%positive 5 1 = Some w_two_chuna.
Proof.
  eexists.
  assert (H1 : w_orders w_two_chuna !! 1%positive
    = Some {| order_id := 1; order_date := today; order_status := "Pending";
              order_items := [1%positive];
              _observers := [OrderObserver 0] |}) by reflexivity.
  assert (H2 : 5 < 1 ∨ Z.of_nat (length [1%positive]) < 5)
    by (right; simpl; lia).
  split; [exact H1|]. split; [exact H2|].
  exact (C5_remove_item_out_of_range w_two_chuna 1%positive _ 5 1 H1 H2).
Defined.

Lemma C8_add_then_remove_witness :
  let line := {| orderitem_id := 2; menu_item := Some latte; quantity := 1 |} in
  ∃ ord,
    w_orders w_latte_loose !! 1%positive = Some ord
    ∧ order_items ord = [1%positive]
    ∧ w_items w_latte_loose !! 2%positive = Some line
    ∧ ∃ w1 w2 ord1 ord2,
        Order.add_item w_latte_loose 1%positive 2%positive = Some w1
        ∧ w_orders w1 !! 1%positive = Some ord1
        ∧ order_items ord1 = [1%positive; 2%positive]
        ∧ Order.remove_item w1 1%positive 2 1 = Some w2
        ∧ w_orders w2 !! 1%positive = Some ord2
        ∧ order_items ord2 = [1%positive].
Proof.
  intros line. eexists.
  assert (H1 : w_orders w_latte_loose !! 1%positive
    = Some {| order_id := 1; order_date := today; order_status := "Pending";
              order_items := [1%positive];
              _observers := [OrderObserver 0] |}) by reflexivity.
  assert (H2 : w_items w_latte_loose !! 2%positive = Some line)
    by reflexivity.
  split; [exact H1|]. split; [reflexivity|]. split; [exact H2|].
  destruct (C8_add_then_remove w_latte_loose 1%positive 2%positive _ line
              H1 H2)
    as (w1 & w2 & ord1 & ord2 & Ha & Ho1 & Hi1 & Hlen & _ & Hr & Ho2 & Hi2 & _).
  exists w1, w2, ord1, ord2.
  split; [exact Ha|]. split; [exact Ho1|]. split; [exact Hi1|].
  split; [|split; [exact Ho2|exact Hi2]].
  rewrite Hlen in Hr. exact Hr.
Defined.

(** ** Faults while totalling *)

Lemma line_totals_fault {py : PyLib} (lines : list OrderItem)
    (it : OrderItem) (e : PyExc) :
  it ∈ lines → OrderItem.get_line_total it = Raise e →
  ∃ e', Order.line_totals lines = Raise e'.
Proof.
  intros Hin Hit.
  induction Hin as [it lines|it it' lines _ IH]; simpl.
  - rewrite Hit. eauto.
  - destruct (OrderItem.get_line_total it'); [|eauto].
    destruct (IH Hit) as [e' ->]. eauto.
Qed.

(** The exception that surfaces is that of the first line that raises. *)
Lemma line_totals_first_fault {py : PyLib} (good rest : list OrderItem)
    (bad : OrderItem) (e : PyExc) :
  Forall (λ it, ∃ t, line_product it t) good →
  OrderItem.get_line_total bad = Raise e →
  Order.line_totals (good ++ bad :: rest) = Raise e.
Proof.
  intros Hgood Hbad.
  induction Hgood as [|it good [t Ht] _ IH]; simpl.
  - by rewrite Hbad.
  - apply get_line_total_product in Ht. by rewrite Ht, IH.
Qed.

(** C7: [get_total] returns normally in every state of every order; when
    the subtotal of one of the lines faults (its item reference is [None])
    the value returned is 0, and the only effect is the error line printed
    on the terminal. *)
Theorem C7_get_total_never_raises {py : PyLib}
    (w : World) (o : loc) (ord : Order) :
  wf w →
  w_orders w !! o = Some ord →
  ∃ lines t w',
    current_lines w o = Some lines
    ∧ Order.get_total w o = Some (t, w')
    ∧ ((∃ it e, it ∈ lines ∧ OrderItem.get_line_total it = Raise e) →
        t = float_0 ∧ ∃ e', w' = print (PrintTotalError e') w).
Proof.
  intros Hwf Ho.
  destruct (wf_current_lines w o ord Hwf Ho) as [lines Hl].
  exists lines. rewrite (get_total_lines _ _ _ Hl).
  destruct (Order.line_totals lines) as [s|e] eqn:Hs.
  - eexists _, _. split; [done|]. split; [done|].
    intros (it & e & Hin & Hit).
    destruct (line_totals_fault lines it e Hin Hit) as [e' He'].
    congruence.
  - eexists _, _. split; [done|]. split; [done|]. eauto.
Qed.

Lemma wf_w_malformed : wf w_malformed.
Proof.
  intros o ord H.
  assert (Hm : w_orders w_malformed
    = {[ 1%positive :=
         {| order_id := 1; order_date := today; order_status := "Pending";
            order_items := [1%positive; 2%positive];
            _observers := [OrderObserver 0] |} ]}) by reflexivity.
  rewrite Hm in H. apply lookup_singleton_Some in H as [_ <-].
  repeat constructor; by eexists.
Defined.

Lemma C7_get_total_never_raises_witness :
  ∃ ord lines,
    wf w_malformed
    ∧ w_orders w_malformed !! 1%positive = Some ord
    ∧ current_lines w_malformed 1%positive = Some lines
    ∧ (∃ it e, it ∈ lines ∧ OrderItem.get_line_total it = Raise e)
    ∧ Order.get_total w_malformed 1%positive
        = Some (0%Qc, print (PrintTotalError AttributeError) w_malformed).
Proof.
  eexists _, _.
  assert (H1 : w_orders w_malformed !! 1%positive
    = Some {| order_id := 1; order_date := today; order_status := "Pending";
              order_items := [1%positive; 2%positive];
              _observers := [OrderObserver 0] |}) by reflexivity.
  split; [exact wf_w_malformed|]. split; [exact H1|].
  destruct (C7_get_total_never_raises w_malformed 1%positive _
              wf_w_malformed H1) as (lines & t & w' & Hl & Ht & _).
  split; [reflexivity|]. split.
  - exists {| orderitem_id := 2; menu_item := None; quantity := 3 |},
      AttributeError.
    split; [|reflexivity]. apply list_elem_of_lookup. by exists 1%nat.
  - reflexivity.
Defined.

(** ** Observers *)

Lemma times_called_calls_of {py : PyLib} (ob : Observer) (message : string)
    (obs : list Observer) :
  times_called ob message (calls_of message obs) = attachments ob obs.
Proof.
  unfold times_called, attachments, calls_of.
  induction obs as [|x obs IH]; [done|]. simpl.
  rewrite !filter_cons.
  destruct (decide (x = ob)) as [->|Hne].
  - rewrite decide_True by done. simpl. by rewrite IH.
  - rewrite decide_False by congruence. done.
Qed.

Lemma attachments_not_elem_of {py : PyLib}
    (ob : Observer) (obs : list Observer) :
  ob ∉ obs → attachments ob obs = 0%nat.
Proof.
  unfold attachments. induction obs as [|x obs IH]; [done|].
  intros Hn. apply not_elem_of_cons in Hn as [Hne Hn].
  rewrite filter_cons_False by congruence. by apply IH.
Qed.

Lemma attachments_NoDup {py : PyLib} (ob : Observer) (obs : list Observer) :
  NoDup obs → ob ∈ obs → attachments ob obs = 1%nat.
Proof.
  induction 1 as [|x obs Hx Hnd IH]; [by intros ?%elem_of_nil|].
  intros [->|Hin]%elem_of_cons; unfold attachments.
  - rewrite filter_cons_True by done. simpl. f_equal.
    by apply attachments_not_elem_of.
  - rewrite filter_cons_False by (intros ->; done). by apply IH.
Qed.

(** C9 (as amended): [attach] appends to the subscriber list without
    looking for duplicates, and [notify(message)] calls [update(message)]
    once for every entry of that list, in list (attach) order, all calls
    made before [notify] returns; the subscriber list itself is unchanged.
    So an observer is called as many times as it was attached: exactly once
    when it was attached once. *)
Theorem C9_notify_once_per_attachment {py : PyLib}
    (w : World) (o : loc) (ord : Order)
    (message : string) :
  w_orders w !! o = Some ord →
  (∀ ob, Subject.attach w o ob
         = Some (upd_orders
                   <[o := set_observers (_observers ord ++ [ob]) ord]> w))
  ∧ ∃ w', Subject.notify w o message = Some w'
      ∧ w_updates w' = w_updates w ++ calls_of message (_observers ord)
      ∧ w_orders w' = w_orders w
      ∧ (∀ ob, times_called ob message (calls_of message (_observers ord))
               = attachments ob (_observers ord))
      ∧ (NoDup (_observers ord) →
         ∀ ob, ob ∈ _observers ord →
           times_called ob message (calls_of message (_observers ord)) = 1%nat).
Proof.
  intros Ho. split.
  - intros ob. unfold Subject.attach. by rewrite Ho.
  - eexists. split; [by apply notify_world|]. simpl.
    split; [done|]. split; [done|]. split.
    + intros ob. apply times_called_calls_of.
    + intros Hnd ob Hin. rewrite times_called_calls_of.
      by apply attachments_NoDup.
Qed.

Lemma C9_notify_once_per_attachment_witness :
  ∃ ord,
    w_orders w_pending !! 1%positive = Some ord
    ∧ _observers ord = [OrderObserver 0]
    ∧ ∃ w', Subject.notify w_pending 1%positive "ping" = Some w'
        ∧ w_updates w' = w_updates w_pending ++ [(OrderObserver 0, "ping"%string)]
        ∧ times_called (OrderObserver 0) "ping"
            (calls_of "ping" [OrderObserver 0]) = 1%nat.
Proof.
  eexists.
  assert (H1 : w_orders w_pending !! 1%positive
    = Some {| order_id := 1; order_date := today; order_status := "Pending";
              order_items := []; _observers := [OrderObserver 0] |})
    by reflexivity.
  split; [exact H1|]. split; [reflexivity|].
  destruct (C9_notify_once_per_attachment w_pending 1%positive _ "ping" H1)
    as (_ & w' & Hn & Hu & _ & _ & Hone).
  exists w'. split; [exact Hn|]. split; [exact Hu|].
  apply Hone.
  - apply NoDup_singleton.
  - apply list_elem_of_singleton. reflexivity.
Defined.

(** C9 (as stated) fails: an observer attached twice to an order is called
    twice by a single [notify]. *)
Lemma C9_counterexample :
  ∃ ord w',
    w_orders w_twice !! 1%positive = Some ord
    ∧ _observers ord = [OrderObserver 0; OrderObserver 0]
    ∧ w_updates w_twice = []
    ∧ Subject.notify w_twice 1%positive "ping" = Some w'
    ∧ w_updates w' = [(OrderObserver 0, "ping"%string);
                      (OrderObserver 0, "ping"%string)]
    ∧ times_called (OrderObserver 0) "ping" (w_updates w') = 2%nat.
Proof.
  eexists _, _. repeat split; reflexivity.
Qed.

(** ** The catalog *)

Lemma find_by_id_app {py : PyLib} (l1 l2 : list MenuItem) (id : Z) :
  Menu.find_by_id (l1 ++ l2) id =
    match Menu.find_by_id l1 id with
    | Some x => Some x
    | None => Menu.find_by_id l2 id
    end.
Proof.
  induction l1 as [|x l1 IH]; simpl; [done|].
  by case_bool_decide.
Qed.

Lemma find_by_id_None {py : PyLib} (l : list MenuItem) (id : Z) :
  Menu.find_by_id l id = None ↔ ∀ item, item ∈ l → item_id item ≠ id.
Proof.
  induction l as [|x l IH]; simpl.
  - split; [|done]. intros _ item Hin. by apply elem_of_nil in Hin.
  - case_bool_decide as Hx.
    + split; [done|]. intros Hall. destruct (Hall x); [left|done].
    + rewrite IH. split.
      * intros Hall item [->|Hin]%elem_of_cons; auto.
      * intros Hall item Hin. apply Hall. by right.
Qed.

Lemma find_by_id_Some {py : PyLib} (l : list MenuItem) (id : Z) (x : MenuItem) :
  Menu.find_by_id l id = Some x → item_id x = id ∧ x ∈ l.
Proof.
  induction l as [|y l IH]; simpl; [done|].
  case_bool_decide as Hy.
  - intros [= <-]. split; [done|left].
  - intros H. destruct (IH H). split; [done|by right].
Qed.

(** C6: looking up an id that no item of the catalog carries returns
    [None]; looking up an id that some item carries returns an item of the
    catalog with that id.  The lookup is a total function: there is no
    third outcome. *)
Theorem C6_get_item_by_id {py : PyLib} (self : Menu) (id : Z) :
  ((∀ item, item ∈ items self → item_id item ≠ id) →
     Menu.get_item_by_id self id = None)
  ∧ ((∃ item, item ∈ items self ∧ item_id item = id) →
     ∃ found, Menu.get_item_by_id self id = Some found
       ∧ item_id found = id ∧ found ∈ items self).
Proof.
  unfold Menu.get_item_by_id. split.
  - intros Hall. by apply find_by_id_None.
  - intros (item & Hin & Hid).
    destruct (Menu.find_by_id (items self) id) as [found|] eqn:Hf.
    + exists found. split; [done|]. by apply find_by_id_Some.
    + exfalso. by apply (proj1 (find_by_id_None _ _) Hf item).
Qed.

(** C10: [Menu.add_item] appends the item whatever ids the catalog already
    holds, and [get_item_by_id] returns the first item of the list that
    carries the id, which is the one inserted earliest: an item added
    later under an id already present never changes the result. *)
Theorem C10_duplicate_ids_first_wins {py : PyLib}
    (self : Menu) (item : MenuItem) :
  items (Menu.add_item self item) = items self ++ [item]
  ∧ (∀ before first after,
       items self = before ++ first :: after →
       Forall (λ x, item_id x ≠ item_id first) before →
       Menu.get_item_by_id self (item_id first) = Some first)
  ∧ (∀ old, old ∈ items self → item_id old = item_id item →
       Menu.get_item_by_id (Menu.add_item self item) (item_id item)
         = Menu.get_item_by_id self (item_id item)
       ∧ length (items (Menu.add_item self item))
           = S (length (items self))).
Proof.
  split; [done|]. split.
  - intros before first after Hitems Hbefore.
    unfold Menu.get_item_by_id. rewrite Hitems, find_by_id_app.
    assert (Menu.find_by_id before (item_id first) = None) as ->.
    { apply find_by_id_None. intros x Hx.
      by apply (proj1 (Forall_forall _ _) Hbefore). }
    simpl. by rewrite bool_decide_eq_true_2.
  - intros old Hin Hid. split.
    + unfold Menu.get_item_by_id. simpl. rewrite find_by_id_app.
      destruct (Menu.find_by_id (items self) (item_id item)) eqn:Hf; [done|].
      exfalso. by apply (proj1 (find_by_id_None _ _) Hf old).
    + simpl. rewrite length_app. simpl. lia.
Qed.

Lemma C6_get_item_by_id_witness :
  (∀ item, item ∈ items menu_two → item_id item ≠ 999)
  ∧ Menu.get_item_by_id menu_two 999 = None
  ∧ (∃ item, item ∈ items menu_two ∧ item_id item = 2)
  ∧ ∃ found, Menu.get_item_by_id menu_two 2 = Some found
      ∧ item_id found = 2 ∧ found ∈ items menu_two.
Proof.
  assert (H1 : ∀ item, item ∈ items menu_two → item_id item ≠ 999).
  { intros item Hin. simpl in Hin.
    apply elem_of_cons in Hin as [->|Hin]; [done|].
    apply list_elem_of_singleton in Hin as ->. done. }
  assert (H2 : ∃ item, item ∈ items menu_two ∧ item_id item = 2).
  { exists latte. split; [|done]. simpl. right. left. }
  split; [exact H1|].
  split; [exact (proj1 (C6_get_item_by_id menu_two 999) H1)|].
  split; [exact H2|].
  exact (proj2 (C6_get_item_by_id menu_two 2) H2).
Defined.

Lemma C10_duplicate_ids_first_wins_witness :
  items menu_two = [] ++ chuna :: [latte]
  ∧ Forall (λ x, item_id x ≠ item_id chuna) []
  ∧ chuna ∈ items menu_two
  ∧ item_id chuna = item_id tuna_melt
  ∧ items (Menu.add_item menu_two tuna_melt) = [chuna; latte; tuna_melt]
  ∧ Menu.get_item_by_id menu_two (item_id chuna) = Some chuna
  ∧ Menu.get_item_by_id (Menu.add_item menu_two tuna_melt) 1 = Some chuna.
Proof.
  assert (H1 : items menu_two = [] ++ chuna :: [latte]) by reflexivity.
  assert (H2 : Forall (λ x, item_id x ≠ item_id chuna) []) by constructor.
  assert (H3 : chuna ∈ items menu_two) by (simpl; left).
  assert (H4 : item_id chuna = item_id tuna_melt) by reflexivity.
  destruct (C10_duplicate_ids_first_wins menu_two tuna_melt)
    as (Happ & Hfirst & Hdup).
  split; [exact H1|]. split; [exact H2|]. split; [exact H3|].
  split; [exact H4|]. split; [exact Happ|].
  split; [exact (Hfirst [] chuna [latte] H1 H2)|].
  destruct (Hdup chuna H3 H4) as [Hsame _].
  change (item_id tuna_melt) with 1 in Hsame. rewrite Hsame.
  exact (Hfirst [] chuna [latte] H1 H2).
Defined.

(** ** Payment *)

Lemma valid_method_cash_or_card {py : PyLib} (m : string) :
  Payment.valid_method m = true ↔ cash_or_card m.
Proof.
  unfold Payment.valid_method, cash_or_card. rewrite bool_decide_eq_true.
  rewrite elem_of_cons, list_elem_of_singleton. done.
Qed.

Lemma invalid_method_not_cash_or_card {py : PyLib} (m : string) :
  ¬ cash_or_card m → Payment.valid_method m = false.
Proof.
  intros H. apply not_true_is_false. by rewrite valid_method_cash_or_card.
Qed.

Lemma foldl_print {py : PyLib} (out : list Output) (w : World) :
  foldl (λ w o, print o w) w out =
    {| w_items := w_items w; w_orders := w_orders w; w_bills := w_bills w;
       w_updates := w_updates w; w_stdout := w_stdout w ++ out;
       w_stdin := w_stdin w |}.
Proof.
  revert w. induction out as [|o out IH]; intros w; simpl.
  - rewrite app_nil_r. by destruct w.
  - rewrite IH. simpl. by rewrite <- app_assoc.
Qed.

Lemma ask_method_valid {py : PyLib}
    (m : string) (inp : list string) (out : list Output) :
  Payment.valid_method m = true →
  Payment.ask_method m inp out = (Ret (), m, inp, out).
Proof. intros H. destruct inp; simpl; by rewrite H. Qed.

(** The prompt is repeated for the first method and for every rejected
    line, until an accepted line is read. *)
Lemma ask_method_retry {py : PyLib} (bad : list string) (m good : string)
    (rest : list string) (out : list Output) :
  Payment.valid_method m = false →
  Forall (λ x, Payment.valid_method x = false) bad →
  Payment.valid_method good = true →
  Payment.ask_method m (bad ++ good :: rest) out
    = (Ret (), good, rest,
       out ++ replicate (S (length bad)) (Print Payment.prompt)).
Proof.
  intros Hm Hbad Hgood. revert m out Hm.
  induction Hbad as [|x bad Hx _ IH]; intros m out Hm; simpl; rewrite Hm.
  - by rewrite ask_method_valid.
  - rewrite (IH x _ Hx). by rewrite <- app_assoc.
Qed.

(** C4 (as amended): when [amount <= 0] holds, [process_payment] prints the
    invalid-amount line and returns: the payment object is unchanged, no
    input is read and no confirmation is printed.  Otherwise, when
    [method.upper()] is "CASH" or "CARD", it prints the confirmation and
    leaves the payment unchanged.  Otherwise it does not report anything to
    its caller: it prompts on the terminal, stores each line read as the
    payment method, and, once the upper-cased line is "CASH" or "CARD",
    prints the confirmation with that method and returns as in the valid
    case. *)
Theorem C4_process_payment {py : PyLib} (self : Payment) (w : World) :
  (fle_0 (payment_amount self) = true →
     Payment.process_payment self w
       = (Ret (), self,
          print (Print "Invalid payment amount. Cannot process payment.") w))
  ∧ (fle_0 (payment_amount self) = false →
     cash_or_card (payment_method self) →
     Payment.process_payment self w
       = (Ret (), self,
          print (PrintPayment (payment_amount self) (payment_method self)) w))
  ∧ (fle_0 (payment_amount self) = false →
     ¬ cash_or_card (payment_method self) →
     ∀ bad good rest,
       w_stdin w = bad ++ good :: rest →
       Forall (λ x, ¬ cash_or_card x) bad →
       cash_or_card good →
       Payment.process_payment self w
         = (Ret (), set_payment_method good self,
            {| w_items := w_items w; w_orders := w_orders w;
               w_bills := w_bills w; w_updates := w_updates w;
               w_stdout := w_stdout w
                 ++ replicate (S (length bad)) (Print Payment.prompt)
                 ++ [PrintPayment (payment_amount self) good];
               w_stdin := rest |})).
Proof.
  unfold Payment.process_payment. split; [|split].
  - by intros ->.
  - intros -> Hvalid.
    rewrite ask_method_valid by by apply valid_method_cash_or_card.
    destruct self, w; done.
  - intros -> Hinvalid bad good rest Hin Hbad Hgood.
    rewrite Hin, (ask_method_retry bad _ good rest).
    + rewrite foldl_print. unfold print. simpl. by rewrite <- app_assoc.
    + by apply invalid_method_not_cash_or_card.
    + eapply Forall_impl; [exact Hbad|]. intros x Hx. simpl in Hx.
      by apply invalid_method_not_cash_or_card.
    + by apply valid_method_cash_or_card.
Qed.

Lemma C4_process_payment_witness :
  fle_0 (payment_amount pay_zero) = true
  ∧ Payment.process_payment pay_zero empty_world
    = (Ret (), pay_zero,
       print (Print "Invalid payment amount. Cannot process payment.")
         empty_world)
  ∧ fle_0 (payment_amount pay_cash) = false
  ∧ cash_or_card (payment_method pay_cash)
  ∧ Payment.process_payment pay_cash empty_world
    = (Ret (), pay_cash, print (PrintPayment (Q2Qc 5) "cash") empty_world)
  ∧ ¬ cash_or_card (payment_method pay_cheque)
  ∧ Payment.process_payment pay_cheque w_card_typed
    = (Ret (), set_payment_method "card" pay_cheque,
       {| w_items := ∅; w_orders := ∅; w_bills := ∅; w_updates := [];
          w_stdout := [Print Payment.prompt; PrintPayment (Q2Qc 5) "card"];
          w_stdin := [] |}).
Proof.
  assert (H0 : fle_0 (payment_amount pay_zero) = true) by reflexivity.
  assert (H5 : fle_0 (payment_amount pay_cash) = false) by reflexivity.
  assert (Hcash : cash_or_card (payment_method pay_cash))
    by (left; reflexivity).
  assert (Hcheque : ¬ cash_or_card (payment_method pay_cheque)).
  { intros [H|H]; vm_compute in H; discriminate. }
  split; [exact H0|].
  split; [exact (proj1 (C4_process_payment pay_zero empty_world) H0)|].
  split; [exact H5|]. split; [exact Hcash|].
  split; [exact (proj1 (proj2 (C4_process_payment pay_cash empty_world))
                   H5 Hcash)|].
  split; [exact Hcheque|].
  refine (proj2 (proj2 (C4_process_payment pay_cheque w_card_typed))
            H5 Hcheque [] "card"%string [] eq_refl _ _).
  - constructor.
  - right. reflexivity.
Defined.

(** C4 (as stated) fails in its last part: a payment of 5.00 by "cheque"
    is not reported to the caller as invalid.  The call prompts, reads
    "card", prints the confirmation and returns like a valid payment. *)
Lemma C4_counterexample :
  fle_0 (payment_amount pay_cheque) = false
  ∧ ¬ cash_or_card (payment_method pay_cheque)
  ∧ ∃ p' w',
      Payment.process_payment pay_cheque w_card_typed = (Ret (), p', w')
      ∧ payment_method p' = "card"%string
      ∧ w_stdout w' = [Print Payment.prompt; PrintPayment (Q2Qc 5) "card"].
Proof.
  split; [reflexivity|]. split.
  - intros [H|H]; vm_compute in H; discriminate.
  - eexists _, _. repeat split; reflexivity.
Qed.

(** ** Well-formedness is an invariant of the program *)

Lemma wf_empty_world {py : PyLib} : wf empty_world.
Proof. intros o ord H. simpl in H. by rewrite lookup_empty in H. Qed.

Lemma wf_same_heap {py : PyLib} (w w' : World) :
  w_items w' = w_items w → w_orders w' = w_orders w → wf w → wf w'.
Proof. unfold wf. intros -> ->. done. Qed.

Lemma wf_insert_item {py : PyLib} (w : World) (l : loc) (it : OrderItem) :
  wf w → wf (upd_items <[l := it]> w).
Proof.
  intros Hwf o ord Ho. simpl in *.
  eapply Forall_impl; [by apply (Hwf o)|].
  intros l' Hl'. simpl in Hl'. rewrite lookup_insert_is_Some.
  destruct (decide (l = l')); auto.
Qed.

Lemma wf_insert_order {py : PyLib} (w : World) (o : loc) (ord : Order) :
  wf w →
  Forall (λ l, is_Some (w_items w !! l)) (order_items ord) →
  wf (upd_orders <[o := ord]> w).
Proof.
  intros Hwf Hord o' ord' Ho'. simpl in *.
  apply lookup_insert_Some in Ho' as [[_ <-]|[_ Ho']]; [done|].
  by apply (Hwf o').
Qed.

Lemma wf_notify {py : PyLib} (w w' : World) (o : loc) (message : string) :
  Subject.notify w o message = Some w' → wf w → wf w'.
Proof.
  intros H. apply notify_frame in H as (Hi & Ho & _).
  by apply wf_same_heap.
Qed.

Lemma run_op_wf {py : PyLib} (w w' : World) (op : OrderOp) :
  wf w → op_ok w op → run_op w op = Some w' → wf w'.
Proof.
  intros Hwf Hok.
  destruct op as [i m q|o ob|o l|o n q|o s|i o]; simpl.
  - intros [= <-]. by apply wf_insert_item.
  - unfold Subject.attach.
    destruct (w_orders w !! o) as [ord|] eqn:Ho; simpl; [|done].
    intros [= <-]. apply wf_insert_order; [done|]. simpl. by apply (Hwf o).
  - unfold Order.add_item. destruct Hok as [_ Hl].
    destruct (w_orders w !! o) as [ord|] eqn:Ho; simpl; [|done].
    intros H. eapply wf_notify; [exact H|].
    apply wf_insert_order; [done|]. simpl.
    apply Forall_app. split; [by apply (Hwf o)|]. by constructor.
  - unfold Order.remove_item.
    destruct (w_orders w !! o) as [ord|] eqn:Ho; simpl; [|done].
    case_bool_decide; [|by intros [= <-]].
    destruct (order_items ord !! _) as [l|]; simpl; [|done].
    destruct (w_items w !! l) as [it|]; simpl; [|done].
    case_bool_decide; intros Hn; (eapply wf_notify; [exact Hn|]).
    + apply wf_insert_order; [done|]. simpl.
      apply Forall_delete. by apply (Hwf o).
    + by apply wf_insert_item.
  - unfold Staff.update_order_status.
    destruct (w_orders w !! o) as [ord|] eqn:Ho; simpl; [|done].
    intros H. eapply wf_notify; [exact H|].
    apply wf_insert_order; [done|]. simpl. by apply (Hwf o).
  - destruct (Bill.init w i o) as [[b w1]|] eqn:Hb; simpl; [|done].
    intros [= <-]. unfold Bill.init in Hb.
    destruct (Order.get_total w o) as [[t w0]|] eqn:Ht; simpl in Hb; [|done].
    injection Hb as _ <-.
    apply get_total_frame in Ht as (Hi & Ho & _).
    by apply (wf_same_heap w).
Qed.

(** On a well-formed world an operation with live references goes
    through. *)
Lemma run_op_is_Some {py : PyLib} (w : World) (op : OrderOp) :
  wf w → op_ok w op → is_Some (run_op w op).
Proof.
  intros Hwf Hok.
  destruct op as [i m q|o ob|o l|o n q|o s|i o]; simpl in *.
  - done.
  - destruct Hok as [ord Ho]. unfold Subject.attach. by rewrite Ho.
  - destruct Hok as [[ord Ho] _]. by rewrite (add_item_world _ _ _ _ Ho).
  - destruct Hok as [ord Ho]. unfold Order.remove_item. rewrite Ho. simpl.
    case_bool_decide as Hn; [|done].
    destruct (lookup_lt_is_Some_2 (order_items ord) (Z.to_nat (n - 1)))
      as [l Hl]; [lia|].
    rewrite Hl. simpl.
    destruct (proj1 (Forall_forall _ _) (Hwf o ord Ho) l) as [it Hit].
    { apply list_elem_of_lookup. eauto. }
    rewrite Hit. simpl.
    case_bool_decide.
    + by rewrite (notify_world _ _ _ _ (upd_orders_lookup _ _ _)).
    + assert (Ho' : w_orders (upd_items
        <[l := set_quantity (quantity it - q) it]> w) !! o = Some ord) by done.
      by rewrite (notify_world _ _ _ _ Ho').
  - destruct Hok as [ord Ho]. unfold Staff.update_order_status.
    rewrite Ho. simpl.
    by rewrite (notify_world _ _ _ _ (upd_orders_lookup _ _ _)).
  - destruct Hok as [ord Ho].
    destruct (wf_current_lines w o ord Hwf Ho) as [lines Hl].
    unfold Bill.init. rewrite (get_total_lines _ _ _ Hl). simpl.
    by destruct (Order.line_totals lines).
Qed.

(** * Further properties of the program *)

(** ** The catalog: removal, insertion, lookup *)

Lemma find_by_id_filter_same {py : PyLib} (l : list MenuItem) (id : Z) :
  Menu.find_by_id (filter (λ item, item_id item ≠ id) l) id = None.
Proof.
  apply find_by_id_None. intros item Hin.
  by apply list_elem_of_filter in Hin as [Hne _].
Qed.

Lemma find_by_id_filter_other {py : PyLib} (l : list MenuItem) (id id' : Z) :
  id ≠ id' →
  Menu.find_by_id (filter (λ item, item_id item ≠ id) l) id'
    = Menu.find_by_id l id'.
Proof.
  intros Hne. induction l as [|x l IH]; [done|].
  rewrite filter_cons. simpl. case_bool_decide as Hx.
  - rewrite decide_True by congruence. simpl.
    by rewrite bool_decide_eq_true_2.
  - destruct (decide (item_id x ≠ id)); simpl; [|done].
    by rewrite bool_decide_eq_false_2.
Qed.

Lemma filter_id_absent {py : PyLib} (l : list MenuItem) (id : Z) :
  Menu.find_by_id l id = None →
  filter (λ item, item_id item ≠ id) l = l.
Proof.
  rewrite find_by_id_None. intros Hall.
  induction l as [|x l IH]; [done|].
  rewrite filter_cons_True by (apply Hall; left).
  f_equal. apply IH. intros item Hin. apply Hall. by right.
Qed.

(** Menu.remove_item: after [remove_item(id)] a lookup of [id] finds
    nothing, however many items carried that id. *)
Theorem Menu_remove_item_then_lookup {py : PyLib} (self : Menu) (id : Z) :
  Menu.get_item_by_id (Menu.remove_item self id) id = None.
Proof. apply find_by_id_filter_same. Qed.

(** Menu.remove_item: removing one id leaves the lookup of every other id
    as it was. *)
Theorem Menu_remove_item_other_lookup {py : PyLib} (self : Menu) (id id' : Z) :
  id ≠ id' →
  Menu.get_item_by_id (Menu.remove_item self id) id'
    = Menu.get_item_by_id self id'.
Proof. apply find_by_id_filter_other. Qed.

Lemma Menu_remove_item_other_lookup_witness :
  1 ≠ 2
  ∧ Menu.get_item_by_id (Menu.remove_item menu_two 1) 2 = Some latte.
Proof.
  assert (H : 1 ≠ 2) by done.
  split; [exact H|].
  rewrite (Menu_remove_item_other_lookup menu_two 1 2 H). reflexivity.
Defined.

(** Menu.remove_item: removing an id that the catalog does not hold
    changes nothing. *)
Theorem Menu_remove_item_absent {py : PyLib} (self : Menu) (id : Z) :
  Menu.get_item_by_id self id = None →
  Menu.remove_item self id = self.
Proof.
  intros H. destruct self as [l]. unfold Menu.remove_item. simpl.
  f_equal. by apply filter_id_absent.
Qed.

Lemma Menu_remove_item_absent_witness :
  Menu.get_item_by_id menu_two 999 = None
  ∧ Menu.remove_item menu_two 999 = menu_two.
Proof.
  assert (H : Menu.get_item_by_id menu_two 999 = None) by reflexivity.
  split; [exact H|]. exact (Menu_remove_item_absent menu_two 999 H).
Defined.

(** Menu.add_item / get_item_by_id: an item added under an id the catalog
    did not hold is the one the lookup of that id returns. *)
Theorem Menu_add_item_then_lookup {py : PyLib} (self : Menu) (item : MenuItem) :
  Menu.get_item_by_id self (item_id item) = None →
  Menu.get_item_by_id (Menu.add_item self item) (item_id item) = Some item.
Proof.
  unfold Menu.get_item_by_id. simpl. intros H.
  rewrite find_by_id_app, H. simpl. by rewrite bool_decide_eq_true_2.
Qed.

Lemma Menu_add_item_then_lookup_witness :
  Menu.get_item_by_id menu_two (item_id cookie) = None
  ∧ Menu.get_item_by_id (Menu.add_item menu_two cookie) (item_id cookie)
    = Some cookie.
Proof.
  assert (H : Menu.get_item_by_id menu_two (item_id cookie) = None)
    by reflexivity.
  split; [exact H|]. exact (Menu_add_item_then_lookup menu_two cookie H).
Defined.

(** Menu.add_item: adding an item never changes what the lookup of a
    different id returns. *)
Theorem Menu_add_item_other_lookup {py : PyLib}
    (self : Menu) (item : MenuItem) (id : Z) :
  id ≠ item_id item →
  Menu.get_item_by_id (Menu.add_item self item) id
    = Menu.get_item_by_id self id.
Proof.
  unfold Menu.get_item_by_id. simpl. intros Hne.
  rewrite find_by_id_app. simpl.
  rewrite bool_decide_eq_false_2 by congruence.
  by destruct (Menu.find_by_id (items self) id).
Qed.

Lemma Menu_add_item_other_lookup_witness :
  2 ≠ item_id cookie
  ∧ Menu.get_item_by_id (Menu.add_item menu_two cookie) 2 = Some latte.
Proof.
  assert (H : 2 ≠ item_id cookie) by done.
  split; [exact H|].
  rewrite (Menu_add_item_other_lookup menu_two cookie 2 H). reflexivity.
Defined.



(** Menu.remove_item: when the id was already in the catalog, adding a
    second item under it and removing the id does not give the catalog
    back: the older items with that id go as well, and the catalog is
    shorter than before. *)
Theorem Menu_add_then_remove_duplicate {py : PyLib}
    (self : Menu) (item old : MenuItem) :
  old ∈ items self → item_id old = item_id item →
  items (Menu.remove_item (Menu.add_item self item) (item_id item))
    = items (Menu.remove_item self (item_id item))
  ∧ (length (items (Menu.remove_item (Menu.add_item self item)
                      (item_id item))) < length (items self))%nat.
Proof.
  intros Hin Hid.
  assert (Heq : items (Menu.remove_item (Menu.add_item self item)
                         (item_id item))
                = items (Menu.remove_item self (item_id item))).
  { simpl. rewrite filter_app.
    rewrite (filter_cons_False _ item) by (intros Hne; by apply Hne).
    apply app_nil_r. }
  split; [exact Heq|]. rewrite Heq. simpl.
  apply (length_filter_lt _ _ old); [done|]. intros Hne. by apply Hne.
Qed.

Lemma Menu_add_then_remove_duplicate_witness :
  chuna ∈ items menu_two
  ∧ item_id chuna = item_id tuna_melt
  ∧ items (Menu.remove_item (Menu.add_item menu_two tuna_melt)
             (item_id tuna_melt)) = [latte].
Proof.
  assert (H1 : chuna ∈ items menu_two) by (simpl; left).
  assert (H2 : item_id chuna = item_id tuna_melt) by reflexivity.
  split; [exact H1|]. split; [exact H2|].
  rewrite (proj1 (Menu_add_then_remove_duplicate menu_two tuna_melt chuna
                    H1 H2)).
  reflexivity.
Defined.

(** ** How add_item and remove_item move the total *)

Lemma get_total_unfold {py : PyLib} (w : World) (o : loc) :
  Order.get_total w o =
    lines ← current_lines w o;
    Some (match Order.line_totals lines with
          | Ret ts => (fadd (fsum ts) (fmul (fsum ts) Order.TAX_RATE), w)
          | Raise e => (float_0, print (PrintTotalError e) w)
          end).
Proof.
  unfold current_lines, Order.get_total.
  by destruct (w_orders w !! o) as [ord|].
Qed.

Lemma current_lines_Some {py : PyLib} (w : World) (o : loc)
    (lines : list OrderItem) :
  current_lines w o = Some lines ↔
  ∃ ord, w_orders w !! o = Some ord
    ∧ Forall2 (λ l it, w_items w !! l = Some it) (order_items ord) lines.
Proof.
  unfold current_lines. split.
  - destruct (w_orders w !! o) as [ord|]; simpl; [|done].
    intros H. exists ord. split; [done|]. by apply mapM_Some_1.
  - intros (ord & -> & H). simpl. by apply mapM_Some_2.
Qed.

(** Order.add_item then Order.get_total: on an order whose line totals all
    compute, adding a line whose total computes puts it last, and
    [get_total] then returns s + s * 0.20 for s the [sum] of the former
    line products followed by the product of the new line (also when the
    same line object is already on the order). *)
Theorem Order_add_item_total {py : PyLib} (w : World) (o l : loc)
    (lines : list OrderItem) (ts : list float) (it : OrderItem) (t : float) :
  current_lines w o = Some lines →
  Forall2 line_product lines ts →
  w_items w !! l = Some it →
  line_product it t →
  ∃ w1, Order.add_item w o l = Some w1
    ∧ current_lines w1 o = Some (lines ++ [it])
    ∧ Order.get_total w1 o
      = Some (fadd (fsum (ts ++ [t]))
                (fmul (fsum (ts ++ [t])) Order.TAX_RATE), w1).
Proof.
  intros Hl Hts Hit Ht.
  apply current_lines_Some in Hl as (ord & Ho & HF).
  eexists. split; [by apply add_item_world|].
  assert (Hl1 : current_lines
    {| w_items := w_items w;
       w_orders := <[o := set_order_items (order_items ord ++ [l]) ord]>
                     (w_orders w);
       w_bills := w_bills w;
       w_updates := w_updates w
                    ++ calls_of "Item added to order" (_observers ord);
       w_stdout := w_stdout w
                   ++ prints_of "Item added to order" (_observers ord);
       w_stdin := w_stdin w |} o = Some (lines ++ [it])).
  { apply current_lines_Some. eexists. split; [apply lookup_insert_eq|].
    simpl. apply Forall2_app; [done|]. by repeat constructor. }
  split; [exact Hl1|].
  apply (get_total_products _ _ _ _ Hl1).
  apply Forall2_app; [done|]. by repeat constructor.
Qed.

Lemma Order_add_item_total_witness :
  let line1 := {| orderitem_id := 1; menu_item := Some chuna; quantity := 2 |} in
  let line2 := {| orderitem_id := 2; menu_item := Some latte; quantity := 1 |} in
  let t1 := (Q2Qc (350 # 100) * Q2Qc (inject_Z 2))%Qc in
  let t2 := (Q2Qc (280 # 100) * Q2Qc (inject_Z 1))%Qc in
  current_lines w_latte_loose 1%positive = Some [line1]
  ∧ Forall2 line_product [line1] [t1]
  ∧ w_items w_latte_loose !! 2%positive = Some line2
  ∧ line_product line2 t2
  ∧ ∃ w1, Order.add_item w_latte_loose 1%positive 2%positive = Some w1
      ∧ current_lines w1 1%positive = Some [line1; line2]
      ∧ Order.get_total w1 1%positive
        = Some (fadd (fsum [t1; t2]) (fmul (fsum [t1; t2]) Order.TAX_RATE),
                w1).
Proof.
  intros line1 line2 t1 t2.
  assert (H1 : current_lines w_latte_loose 1%positive = Some [line1])
    by reflexivity.
  assert (H2 : Forall2 line_product [line1] [t1]).
  { repeat constructor. exists chuna, (Q2Qc (inject_Z 2)).
    split; [reflexivity|]. split; [by vm_compute|reflexivity]. }
  assert (H3 : w_items w_latte_loose !! 2%positive = Some line2)
    by reflexivity.
  assert (H4 : line_product line2 t2).
  { exists latte, (Q2Qc (inject_Z 1)).
    split; [reflexivity|]. split; [by vm_compute|reflexivity]. }
  split; [exact H1|]. split; [exact H2|]. split; [exact H3|].
  split; [exact H4|].
  exact (Order_add_item_total w_latte_loose 1%positive 2%positive [line1]
           [t1] line2 t2 H1 H2 H3 H4).
Defined.

(** Order.remove_item then Order.get_total, whole line: removing at least
    the quantity of the line at an in-range position leaves the other lines
    in order, and [get_total] then returns s + s * 0.20 for s the [sum] of
    the remaining line products, in their order. *)
Theorem Order_remove_item_pop_total {py : PyLib} (w : World) (o : loc)
    (lines : list OrderItem) (ts : list float) (n qty : Z) (it : OrderItem) :
  current_lines w o = Some lines →
  Forall2 line_product lines ts →
  1 ≤ n →
  lines !! Z.to_nat (n - 1) = Some it →
  qty >= quantity it →
  let ts' := delete (Z.to_nat (n - 1)) ts in
  ∃ w', Order.remove_item w o n qty = Some w'
    ∧ current_lines w' o = Some (delete (Z.to_nat (n - 1)) lines)
    ∧ Order.get_total w' o
      = Some (fadd (fsum ts') (fmul (fsum ts') Order.TAX_RATE), w').
Proof.
  intros Hl Hts Hn Hi Hq ts'.
  apply current_lines_Some in Hl as (ord & Ho & HF).
  destruct (Forall2_lookup_r _ _ _ _ _ HF Hi) as (l & Hli & Hit).
  assert (Hlen : (Z.to_nat (n - 1) < length (order_items ord))%nat)
    by (by eapply lookup_lt_Some).
  eexists. split.
  { apply (remove_item_pop w o l ord n qty it); (done || lia). }
  assert (Hl' : ∀ u p, current_lines
    {| w_items := w_items w;
       w_orders := <[o := set_order_items
                             (delete (Z.to_nat (n - 1)) (order_items ord))
                             ord]> (w_orders w);
       w_bills := w_bills w; w_updates := u; w_stdout := p;
       w_stdin := w_stdin w |} o
    = Some (delete (Z.to_nat (n - 1)) lines)).
  { intros u p. apply current_lines_Some. eexists.
    split; [apply lookup_insert_eq|]. simpl. by apply Forall2_delete. }
  split; [apply Hl'|].
  apply (get_total_products _ _ _ _ (Hl' _ _)). by apply Forall2_delete.
Qed.

Lemma Order_remove_item_pop_total_witness :
  let line1 := {| orderitem_id := 1; menu_item := Some chuna; quantity := 2 |} in
  let line2 := {| orderitem_id := 2; menu_item := Some latte; quantity := 1 |} in
  let t1 := (Q2Qc (350 # 100) * Q2Qc (inject_Z 2))%Qc in
  let t2 := (Q2Qc (280 # 100) * Q2Qc (inject_Z 1))%Qc in
  current_lines w_two_lines 1%positive = Some [line1; line2]
  ∧ Forall2 line_product [line1; line2] [t1; t2]
  ∧ 1 ≤ 1
  ∧ [line1; line2] !! Z.to_nat (1 - 1) = Some line1
  ∧ 5 >= quantity line1
  ∧ ∃ w', Order.remove_item w_two_lines 1%positive 1 5 = Some w'
      ∧ current_lines w' 1%positive = Some [line2]
      ∧ Order.get_total w' 1%positive
        = Some (fadd (fsum [t2]) (fmul (fsum [t2]) Order.TAX_RATE), w').
Proof.
  intros line1 line2 t1 t2.
  assert (H1 : current_lines w_two_lines 1%positive = Some [line1; line2])
    by reflexivity.
  assert (H2 : Forall2 line_product [line1; line2] [t1; t2]).
  { repeat constructor.
    - exists chuna, (Q2Qc (inject_Z 2)).
      split; [reflexivity|]. split; [by vm_compute|reflexivity].
    - exists latte, (Q2Qc (inject_Z 1)).
      split; [reflexivity|]. split; [by vm_compute|reflexivity]. }
  assert (H3 : 1 ≤ 1) by lia.
  assert (H4 : [line1; line2] !! Z.to_nat (1 - 1) = Some line1)
    by reflexivity.
  assert (H5 : 5 >= quantity line1) by (simpl; lia).
  split; [exact H1|]. split; [exact H2|]. split; [exact H3|].
  split; [exact H4|]. split; [exact H5|].
  exact (Order_remove_item_pop_total w_two_lines 1%positive _ _ 1 5 line1
           H1 H2 H3 H4 H5).
Defined.

(** Order.remove_item then Order.get_total, part of a line: when the order
    lists every line object once, removing less than the quantity of the
    line at an in-range position changes that one line only: the order then
    shows the same lines, with the quantity of that line lowered by [qty]
    and every other line as it was, and [get_total] returns s + s * 0.20
    for s the [sum] of the products of these lines. *)
Theorem Order_remove_item_decrement_total {py : PyLib} (w : World) (o : loc)
    (ord : Order) (lines : list OrderItem) (n qty : Z) (it : OrderItem) :
  w_orders w !! o = Some ord →
  NoDup (order_items ord) →
  current_lines w o = Some lines →
  1 ≤ n →
  lines !! Z.to_nat (n - 1) = Some it →
  qty < quantity it →
  let lines' :=
    <[Z.to_nat (n - 1) := set_quantity (quantity it - qty) it]> lines in
  ∃ w', Order.remove_item w o n qty = Some w'
    ∧ w_orders w' = w_orders w
    ∧ current_lines w' o = Some lines'
    ∧ ∀ ts', Forall2 line_product lines' ts' →
        Order.get_total w' o
        = Some (fadd (fsum ts') (fmul (fsum ts') Order.TAX_RATE), w').
Proof.
  intros Ho Hnd Hl Hn Hi Hq lines'.
  apply current_lines_Some in Hl as (ord' & Ho' & HF).
  rewrite Ho in Ho'. injection Ho' as <-.
  destruct (Forall2_lookup_r _ _ _ _ _ HF Hi) as (l & Hli & Hit).
  assert (Hlen : (Z.to_nat (n - 1) < length (order_items ord))%nat)
    by (by eapply lookup_lt_Some).
  subst lines'. set (i := Z.to_nat (n - 1)) in *.
  set (it' := set_quantity (quantity it - qty) it).
  eexists. split.
  { apply (remove_item_decrement w o l ord n qty it); (done || lia). }
  split; [done|].
  match goal with
  | |- current_lines ?w1 o = _ ∧ _ =>
      assert (Hl' : current_lines w1 o = Some (<[i := it']> lines))
  end.
  { apply current_lines_Some. exists ord. split; [done|]. simpl.
    apply Forall2_same_length_lookup. split.
    - rewrite length_insert. by eapply Forall2_length.
    - intros j l' y Hj Hy.
      destruct (decide (j = i)) as [->|Hne].
      + rewrite list_lookup_insert_eq in Hy
          by (by eapply lookup_lt_Some). injection Hy as <-.
        rewrite Hli in Hj. injection Hj as <-. apply lookup_insert_eq.
      + rewrite list_lookup_insert_ne in Hy by done.
        assert (l ≠ l').
        { intros <-. apply Hne. by eapply NoDup_lookup. }
        rewrite lookup_insert_ne by done.
        eapply Forall2_lookup_lr in HF; [|exact Hj|exact Hy]. exact HF. }
  split; [exact Hl'|].
  intros ts' Hts'. exact (get_total_products _ _ _ _ Hl' Hts').
Qed.

Lemma Order_remove_item_decrement_total_witness :
  let line1 := {| orderitem_id := 1; menu_item := Some chuna; quantity := 2 |} in
  let line2 := {| orderitem_id := 2; menu_item := Some latte; quantity := 1 |} in
  let ord := {| order_id := 1; order_date := today; order_status := "Pending";
                order_items := [1%positive; 2%positive];
                _observers := [OrderObserver 0] |} in
  let t1 := (Q2Qc (350 # 100) * Q2Qc (inject_Z 1))%Qc in
  let t2 := (Q2Qc (280 # 100) * Q2Qc (inject_Z 1))%Qc in
  w_orders w_two_lines !! 1%positive = Some ord
  ∧ NoDup (order_items ord)
  ∧ current_lines w_two_lines 1%positive = Some [line1; line2]
  ∧ 1 ≤ 1
  ∧ [line1; line2] !! Z.to_nat (1 - 1) = Some line1
  ∧ 1 < quantity line1
  ∧ Forall2 line_product [set_quantity 1 line1; line2] [t1; t2]
  ∧ ∃ w', Order.remove_item w_two_lines 1%positive 1 1 = Some w'
      ∧ current_lines w' 1%positive = Some [set_quantity 1 line1; line2]
      ∧ Order.get_total w' 1%positive
        = Some (fadd (fsum [t1; t2]) (fmul (fsum [t1; t2]) Order.TAX_RATE),
                w').
Proof.
  intros line1 line2 ord t1 t2.
  assert (H1 : w_orders w_two_lines !! 1%positive = Some ord) by reflexivity.
  assert (H2 : NoDup (order_items ord)).
  { simpl. apply NoDup_cons. split; [|apply NoDup_singleton].
    intros H%list_elem_of_singleton. discriminate. }
  assert (H3 : current_lines w_two_lines 1%positive = Some [line1; line2])
    by reflexivity.
  assert (H5 : 1 ≤ 1) by lia.
  assert (H6 : [line1; line2] !! Z.to_nat (1 - 1) = Some line1)
    by reflexivity.
  assert (H8 : 1 < quantity line1) by (simpl; lia).
  assert (H9 : Forall2 line_product [set_quantity 1 line1; line2] [t1; t2]).
  { repeat constructor.
    - exists chuna, (Q2Qc (inject_Z 1)).
      split; [reflexivity|]. split; [by vm_compute|reflexivity].
    - exists latte, (Q2Qc (inject_Z 1)).
      split; [reflexivity|]. split; [by vm_compute|reflexivity]. }
  split; [exact H1|]. split; [exact H2|]. split; [exact H3|].
  split; [exact H5|]. split; [exact H6|]. split; [exact H8|].
  split; [exact H9|].
  destruct (Order_remove_item_decrement_total w_two_lines 1%positive ord _ 1 1
              line1 H1 H2 H3 H5 H6 H8) as (w' & Hr & _ & Hl & Ht).
  exists w'. split; [exact Hr|]. split; [exact Hl|]. exact (Ht _ H9).
Defined.

(** ** Shared line objects *)

(** Order.remove_item mutates the [OrderItem] object itself: when the line
    object reduced through one order is also listed by another order (or at
    another position of the same order), that other line shows the reduced
    quantity as well, although nothing was removed through it. *)
Theorem Order_remove_item_shared_line {py : PyLib} (w : World) (o o2 l : loc)
    (ord ord2 : Order) (n qty : Z) (j : nat) (it : OrderItem) :
  w_orders w !! o = Some ord →
  1 ≤ n ≤ Z.of_nat (length (order_items ord)) →
  order_items ord !! Z.to_nat (n - 1) = Some l →
  w_items w !! l = Some it →
  qty < quantity it →
  w_orders w !! o2 = Some ord2 →
  order_items ord2 !! j = Some l →
  ∃ w', Order.remove_item w o n qty = Some w'
    ∧ w_orders w' !! o2 = Some ord2
    ∧ ∀ lines2, current_lines w' o2 = Some lines2 →
        ∃ it2, lines2 !! j = Some it2
          ∧ quantity it2 = quantity it - qty.
Proof.
  intros Ho Hn Hl Hit Hq Ho2 Hj.
  eexists. split.
  { apply (remove_item_decrement w o l ord n qty it); done. }
  simpl. split; [done|].
  intros lines2 (ord2' & Ho2' & HF)%current_lines_Some. simpl in *.
  rewrite Ho2 in Ho2'. injection Ho2' as <-.
  destruct (Forall2_lookup_l _ _ _ _ _ HF Hj) as (it2 & Hit2 & Hlook).
  exists it2. split; [done|].
  rewrite lookup_insert_eq in Hlook. by injection Hlook as <-.
Qed.

Lemma Order_remove_item_shared_line_witness :
  let line := {| orderitem_id := 1; menu_item := Some chuna; quantity := 2 |} in
  ∃ ord ord2,
    w_orders w_shared !! 1%positive = Some ord
    ∧ 1 ≤ 1 ≤ Z.of_nat (length (order_items ord))
    ∧ order_items ord !! Z.to_nat (1 - 1) = Some 1%positive
    ∧ w_items w_shared !! 1%positive = Some line
    ∧ 1 < quantity line
    ∧ w_orders w_shared !! 2%positive = Some ord2
    ∧ order_items ord2 !! 0%nat = Some 1%positive
    ∧ ∃ w', Order.remove_item w_shared 1%positive 1 1 = Some w'
        ∧ current_lines w' 2%positive = Some [set_quantity 1 line].
Proof.
  intros line.
  exists {| order_id := 1; order_date := today; order_status := "Pending";
            order_items := [1%positive]; _observers := [OrderObserver 0] |},
         {| order_id := 2; order_date := today; order_status := "Pending";
            order_items := [1%positive]; _observers := [] |}.
  assert (H1 : w_orders w_shared !! 1%positive
    = Some {| order_id := 1; order_date := today; order_status := "Pending";
              order_items := [1%positive];
              _observers := [OrderObserver 0] |}) by reflexivity.
  assert (H2 : 1 ≤ 1 ≤ Z.of_nat (length [1%positive])) by (simpl; lia).
  assert (H4 : w_items w_shared !! 1%positive = Some line) by reflexivity.
  assert (H5 : 1 < quantity line) by (simpl; lia).
  assert (H6 : w_orders w_shared !! 2%positive
    = Some {| order_id := 2; order_date := today; order_status := "Pending";
              order_items := [1%positive]; _observers := [] |})
    by reflexivity.
  split; [exact H1|]. split; [exact H2|]. split; [reflexivity|].
  split; [exact H4|]. split; [exact H5|]. split; [exact H6|].
  split; [reflexivity|].
  destruct (Order_remove_item_shared_line w_shared 1%positive 2%positive
              1%positive _ _ 1 1 0%nat line H1 H2 eq_refl H4 H5 H6 eq_refl)
    as (w' & Hr & _ & _).
  exists w'. split; [exact Hr|].
  rewrite (remove_item_decrement w_shared 1%positive 1%positive _ 1 1 line
             H1 H2 eq_refl H4 H5) in Hr.
  injection Hr as <-. reflexivity.
Defined.

(** ** Removing a line in two steps *)

(** Order.add_item, then Order.remove_item twice (the sequence of the unit
    test): a line added with quantity q, reduced by k < q and then by the
    remaining q - k, is gone; the order lists the lines it had before, the
    line object is left with quantity q - k, and the observers were sent
    "Item added to order", "the item quantity has been updated" and "Item
    has been removed from your order", in this order. *)
Theorem Order_add_remove_in_two_steps {py : PyLib}
    (w : World) (o l : loc) (ord : Order)
    (it : OrderItem) (k : Z) :
  w_orders w !! o = Some ord →
  w_items w !! l = Some it →
  k < quantity it →
  let pos := Z.of_nat (length (order_items ord)) + 1 in
  ∃ w1 w2 w3,
    Order.add_item w o l = Some w1
    ∧ Order.remove_item w1 o pos k = Some w2
    ∧ Order.remove_item w2 o pos (quantity it - k) = Some w3
    ∧ w_orders w3 = w_orders w
    ∧ w_items w3 = <[l := set_quantity (quantity it - k) it]> (w_items w)
    ∧ w_updates w3 = w_updates w
        ++ calls_of "Item added to order" (_observers ord)
        ++ calls_of "the item quantity has been updated" (_observers ord)
        ++ calls_of "Item has been removed from your order" (_observers ord).
Proof.
  intros Ho Hit Hk pos.
  set (ord1 := set_order_items (order_items ord ++ [l]) ord).
  set (len := length (order_items ord)).
  assert (Hpos : Z.to_nat (pos - 1) = len) by (unfold pos; lia).
  assert (Hlast : order_items ord1 !! Z.to_nat (pos - 1) = Some l).
  { rewrite Hpos. simpl. unfold len. by rewrite list_lookup_middle. }
  assert (Hrange : 1 ≤ pos ≤ Z.of_nat (length (order_items ord1))).
  { simpl. rewrite length_app. simpl. unfold pos. lia. }
  eexists _, _, _. split; [by apply add_item_world|]. split.
  { apply (remove_item_decrement _ o l ord1 pos k it); try done.
    apply lookup_insert_eq. }
  split.
  { apply (remove_item_pop _ o l ord1 pos _
             (set_quantity (quantity it - k) it)); simpl; try done.
    - apply lookup_insert_eq.
    - apply lookup_insert_eq.
    - lia. }
  simpl. split; [|split].
  - rewrite insert_insert_eq. rewrite Hpos.
    assert (delete len (order_items ord ++ [l]) = order_items ord) as ->.
    { unfold len. rewrite delete_middle. apply app_nil_r. }
    apply insert_id. rewrite Ho. f_equal. by destruct ord.
  - done.
  - by rewrite <- !app_assoc.
Qed.

Lemma Order_add_remove_in_two_steps_witness :
  let line := {| orderitem_id := 1; menu_item := Some chuna; quantity := 2 |} in
  ∃ ord,
    w_orders w_loose !! 1%positive = Some ord
    ∧ w_items w_loose !! 1%positive = Some line
    ∧ 1 < quantity line
    ∧ ∃ w1 w2 w3,
        Order.add_item w_loose 1%positive 1%positive = Some w1
        ∧ Order.remove_item w1 1%positive
            (Z.of_nat (length (order_items ord)) + 1) 1 = Some w2
        ∧ Order.remove_item w2 1%positive
            (Z.of_nat (length (order_items ord)) + 1) (quantity line - 1)
          = Some w3
        ∧ w_orders w3 = w_orders w_loose.
Proof.
  intros line. eexists.
  assert (H1 : w_orders w_loose !! 1%positive
    = Some {| order_id := 1; order_date := today; order_status := "Pending";
              order_items := []; _observers := [OrderObserver 0] |})
    by reflexivity.
  assert (H2 : w_items w_loose !! 1%positive = Some line) by reflexivity.
  assert (H3 : 1 < quantity line) by (simpl; lia).
  split; [exact H1|]. split; [exact H2|]. split; [exact H3|].
  destruct (Order_add_remove_in_two_steps w_loose 1%positive 1%positive _
              line 1 H1 H2 H3) as (w1 & w2 & w3 & Ha & Hr1 & Hr2 & Ho & _).
  exists w1, w2, w3. split; [exact Ha|]. split; [exact Hr1|].
  split; [exact Hr2|exact Ho].
Defined.

(** ** Quantities stay positive *)

Lemma notify_items {py : PyLib} (w w' : World) (o : loc) (message : string) :
  Subject.notify w o message = Some w' → w_items w' = w_items w.
Proof. intros H. by apply notify_frame in H as (-> & _). Qed.

Lemma positive_quantities_same_items {py : PyLib} (w w' : World) :
  w_items w' = w_items w → positive_quantities w → positive_quantities w'.
Proof. unfold positive_quantities. by intros ->. Qed.

Lemma run_op_positive {py : PyLib} (w w' : World) (op : OrderOp) :
  positive_quantities w → op_positive op →
  run_op w op = Some w' → positive_quantities w'.
Proof.
  intros Hpos Hop.
  destruct op as [i m q|o ob|o l|o n q|o s|i o]; simpl.
  - intros [= <-] l it. simpl.
    intros [[_ <-]|[_ H]]%lookup_insert_Some; [done|]. by apply (Hpos l).
  - unfold Subject.attach.
    destruct (w_orders w !! o) as [ord|]; simpl; [|done].
    intros [= <-]. by apply (positive_quantities_same_items w).
  - unfold Order.add_item.
    destruct (w_orders w !! o) as [ord|]; simpl; [|done].
    intros H%notify_items. by apply (positive_quantities_same_items w).
  - unfold Order.remove_item.
    destruct (w_orders w !! o) as [ord|]; simpl; [|done].
    case_bool_decide; [|by intros [= <-]].
    destruct (order_items ord !! _) as [l|]; simpl; [|done].
    destruct (w_items w !! l) as [it|] eqn:Hit; simpl; [|done].
    case_bool_decide as Hq; intros Hn%notify_items.
    + by apply (positive_quantities_same_items w).
    + intros l' it'. rewrite Hn. simpl.
      intros [[_ <-]|[_ H']]%lookup_insert_Some; [simpl; lia|].
      by apply (Hpos l').
  - unfold Staff.update_order_status.
    destruct (w_orders w !! o) as [ord|]; simpl; [|done].
    intros H%notify_items. by apply (positive_quantities_same_items w).
  - destruct (Bill.init w i o) as [[b w1]|] eqn:Hb; simpl; [|done].
    intros [= <-]. unfold Bill.init in Hb.
    destruct (Order.get_total w o) as [[t w0]|] eqn:Ht; simpl in Hb; [|done].
    injection Hb as _ <-.
    apply get_total_frame in Ht as (Hi & _).
    by apply (positive_quantities_same_items w).
Qed.

(** Order.remove_item keeps quantities positive: if every line object has a
    positive quantity and every line created later is given one, then after
    any sequence of attach, add_item, remove_item (with any [qty], also 0
    or negative), status updates and bills, every line object still has a
    positive quantity.  A line is deleted rather than left at 0 or below. *)
Theorem Order_quantities_stay_positive {py : PyLib}
    (ops : list OrderOp) (w w' : World) :
  positive_quantities w →
  Forall op_positive ops →
  run_ops w ops = Some w' →
  positive_quantities w'.
Proof.
  intros Hpos Hops. revert w Hpos.
  induction Hops as [|op ops Hop _ IH]; intros w Hpos; simpl.
  - by intros [= <-].
  - destruct (run_op w op) as [w1|] eqn:H1; simpl; [|done].
    apply IH. by eapply run_op_positive.
Qed.

Lemma Order_quantities_stay_positive_witness :
  positive_quantities w_two_chuna
  ∧ Forall op_positive [OpRemoveItem 1%positive 1 1; OpNewItem 2 (Some latte) 3;
                        OpAddItem 1%positive 2%positive;
                        OpRemoveItem 1%positive 2 (-4)]
  ∧ ∃ w', run_ops w_two_chuna
            [OpRemoveItem 1%positive 1 1; OpNewItem 2 (Some latte) 3;
             OpAddItem 1%positive 2%positive;
             OpRemoveItem 1%positive 2 (-4)] = Some w'
      ∧ positive_quantities w'.
Proof.
  assert (H1 : positive_quantities w_two_chuna).
  { intros l it H.
    assert (Hm : w_items w_two_chuna
      = {[ 1%positive := {| orderitem_id := 1; menu_item := Some chuna;
                            quantity := 2 |} ]}) by reflexivity.
    rewrite Hm in H. apply lookup_singleton_Some in H as [_ <-]. simpl. lia. }
  assert (H2 : Forall op_positive
    [OpRemoveItem 1%positive 1 1; OpNewItem 2 (Some latte) 3;
     OpAddItem 1%positive 2%positive; OpRemoveItem 1%positive 2 (-4)]).
  { repeat constructor; simpl; lia. }
  split; [exact H1|]. split; [exact H2|].
  eexists. split; [reflexivity|].
  eapply (Order_quantities_stay_positive _ w_two_chuna); [exact H1|exact H2|].
  reflexivity.
Defined.

(** ** Status updates *)

(** Staff.update_order_status: any string is accepted as the new status;
    the call rewrites the status of that one order and nothing else, so the
    lines and the total of every order are what they were, and each
    observer of the order is sent "Order status updated to '<status>'". *)
Theorem Staff_update_order_status_effect {py : PyLib}
    (w : World) (o : loc) (ord : Order)
    (new_status : string) :
  w_orders w !! o = Some ord →
  ∃ w', Staff.update_order_status w o new_status = Some w'
    ∧ w_orders w' = <[o := set_order_status new_status ord]> (w_orders w)
    ∧ w_items w' = w_items w
    ∧ w_bills w' = w_bills w
    ∧ w_updates w' = w_updates w
        ++ calls_of ("Order status updated to '" ++ new_status ++ "'")
             (_observers ord)
    ∧ (∀ o2, current_lines w' o2 = current_lines w o2)
    ∧ (∀ o2, fst <$> Order.get_total w' o2 = fst <$> Order.get_total w o2).
Proof.
  intros Ho. unfold Staff.update_order_status. rewrite Ho. simpl.
  rewrite (notify_world _ _ _ _ (upd_orders_lookup _ _ _)). simpl.
  eexists. split; [done|]. simpl.
  split; [done|]. split; [done|]. split; [done|]. split; [done|].
  assert (Hl : ∀ o2 u p, current_lines
    {| w_items := w_items w;
       w_orders := <[o := set_order_status new_status ord]> (w_orders w);
       w_bills := w_bills w; w_updates := u; w_stdout := p;
       w_stdin := w_stdin w |} o2 = current_lines w o2).
  { intros o2 u p. unfold current_lines. simpl.
    destruct (decide (o = o2)) as [<-|Hne].
    - by rewrite lookup_insert_eq, Ho.
    - by rewrite lookup_insert_ne. }
  split; [intros o2; apply Hl|].
  intros o2. rewrite !get_total_unfold, Hl.
  destruct (current_lines w o2) as [lines|]; simpl; [|done].
  by destruct (Order.line_totals lines).
Qed.

Lemma Staff_update_order_status_effect_witness :
  ∃ ord,
    w_orders w_two_chuna !! 1%positive = Some ord
    ∧ ∃ w', Staff.update_order_status w_two_chuna 1%positive "Completed"
            = Some w'
        ∧ (∃ ord', w_orders w' !! 1%positive = Some ord'
             ∧ order_status ord' = "Completed"%string)
        ∧ fst <$> Order.get_total w' 1%positive
          = fst <$> Order.get_total w_two_chuna 1%positive.
Proof.
  eexists.
  assert (H1 : w_orders w_two_chuna !! 1%positive
    = Some {| order_id := 1; order_date := today; order_status := "Pending";
              order_items := [1%positive];
              _observers := [OrderObserver 0] |}) by reflexivity.
  split; [exact H1|].
  destruct (Staff_update_order_status_effect w_two_chuna 1%positive _
              "Completed" H1) as (w' & Hu & Ho & _ & _ & _ & _ & Ht).
  exists w'. split; [exact Hu|]. split; [|apply Ht].
  eexists. rewrite Ho. split; [apply lookup_insert_eq|reflexivity].
Defined.

(** ** The total is never negative

    This property compares floats, so it is stated on the instance
    [ExactLib], where the order is that of the rationals; rounding to
    binary64 is monotone and keeps 0, so the sign is the same there. *)

Lemma Q2Qc_inject_Z_nonneg (z : Z) : 0 ≤ z → (0 ≤ Q2Qc (inject_Z z))%Qc.
Proof.
  intros Hz. unfold Qcle.
  change (0 <= Qred (inject_Z z))%Q. rewrite Qred_correct.
  unfold Qle. simpl. lia.
Qed.

Lemma Qc_nonneg_mult (x y : Qc) : (0 ≤ x → 0 ≤ y → 0 ≤ x * y)%Qc.
Proof.
  intros Hx Hy. replace 0%Qc with (0 * y)%Qc by ring.
  by apply Qcmult_le_compat_r.
Qed.

Lemma Qc_nonneg_plus (x y : Qc) : (0 ≤ x → 0 ≤ y → 0 ≤ x + y)%Qc.
Proof.
  intros Hx Hy. replace 0%Qc with (0 + 0)%Qc by ring.
  by apply Qcplus_le_compat.
Qed.

Lemma exact_sum_nonneg (ts : list Qc) (acc : Qc) :
  Forall (λ t, 0 ≤ t)%Qc ts → (0 ≤ acc)%Qc → (0 ≤ foldl Qcplus acc ts)%Qc.
Proof.
  intros H. revert acc.
  induction H as [|t ts Ht _ IH]; intros acc Hacc; simpl; [done|].
  apply IH. by apply Qc_nonneg_plus.
Qed.

Lemma line_totals_nonneg (lines : list OrderItem) (ts : list Qc) :
  Forall (λ it, 0 ≤ quantity it
                ∧ ∀ m, menu_item it = Some m → (0 ≤ item_price m)%Qc) lines →
  Order.line_totals lines = Ret ts → Forall (λ t, 0 ≤ t)%Qc ts.
Proof.
  intros H. revert ts.
  induction H as [|it lines [Hq Hp] _ IH]; intros ts; simpl.
  - intros [= <-]. constructor.
  - unfold OrderItem.get_line_total.
    destruct (menu_item it) as [m|]; [|done].
    cbn [float_of_int ExactLib]. unfold exact_of_int.
    destruct (float_fits (quantity it)); [|done].
    destruct (Order.line_totals lines) as [ts'|]; [|done].
    intros [= <-]. constructor; [|by apply IH].
    apply Qc_nonneg_mult; [by apply Hp|by apply Q2Qc_inject_Z_nonneg].
Qed.



(** ** Bills of orders that total nothing *)

(** Bill.__init__ on an order with a faulty line: the bill is issued all
    the same, with a stored total of 0, and the only trace of the fault is
    the error line that [get_total] printed. *)
Theorem Bill_of_faulty_order {py : PyLib} (w : World) (bill_id : Z) (o : loc)
    (lines : list OrderItem) :
  current_lines w o = Some lines →
  (∃ it e, it ∈ lines ∧ OrderItem.get_line_total it = Raise e) →
  ∃ b w1 e',
    Bill.init w bill_id o = Some (b, w1)
    ∧ w_bills w1 !! b
      = Some {| bill_id := bill_id; order := o; bill_total := float_0 |}
    ∧ w_stdout w1 = w_stdout w ++ [PrintTotalError e']
    ∧ w_orders w1 = w_orders w ∧ w_items w1 = w_items w.
Proof.
  intros Hl (it & e & Hin & Hit).
  destruct (line_totals_fault lines it e Hin Hit) as [e' He'].
  unfold Bill.init. rewrite (get_total_lines _ _ _ Hl), He'. simpl.
  eexists _, _, e'. split; [done|]. simpl.
  split; [apply lookup_insert_eq|done].
Qed.

Lemma Bill_of_faulty_order_witness :
  ∃ lines,
    current_lines w_malformed 1%positive = Some lines
    ∧ (∃ it e, it ∈ lines ∧ OrderItem.get_line_total it = Raise e)
    ∧ ∃ b w1 e',
        Bill.init w_malformed 7 1%positive = Some (b, w1)
        ∧ w_bills w1 !! b
          = Some {| bill_id := 7; order := 1%positive; bill_total := 0%Qc |}
        ∧ w_stdout w1 = w_stdout w_malformed ++ [PrintTotalError e']
        ∧ w_orders w1 = w_orders w_malformed
        ∧ w_items w1 = w_items w_malformed.
Proof.
  eexists.
  assert (H1 : current_lines w_malformed 1%positive
    = Some [ {| orderitem_id := 1; menu_item := Some chuna; quantity := 2 |};
             {| orderitem_id := 2; menu_item := None; quantity := 3 |} ])
    by reflexivity.
  assert (H2 : ∃ it e,
    it ∈ [ {| orderitem_id := 1; menu_item := Some chuna; quantity := 2 |};
           {| orderitem_id := 2; menu_item := None; quantity := 3 |} ]
    ∧ OrderItem.get_line_total it = Raise e).
  { exists {| orderitem_id := 2; menu_item := None; quantity := 3 |},
      AttributeError.
    split; [|reflexivity]. apply list_elem_of_lookup. by exists 1%nat. }
  split; [exact H1|]. split; [exact H2|].
  exact (Bill_of_faulty_order w_malformed 7 1%positive _ H1 H2).
Defined.

(** Bill.__init__ then Payment.process_payment, empty order: the bill of an
    order without lines stores 0, and a payment for that amount is turned
    down as an invalid amount whatever the method, before any prompt. *)
Theorem Bill_of_empty_order_not_payable {py : PyLib}
    (w : World) (bill_id : Z) (o : loc)
    (ord : Order) :
  w_orders w !! o = Some ord →
  order_items ord = [] →
  ∃ b w1 bill,
    Bill.init w bill_id o = Some (b, w1)
    ∧ w_bills w1 !! b = Some bill
    ∧ bill_total bill = float_0
    ∧ ∀ payment_id method w2,
        Payment.process_payment (payment_for payment_id method bill) w2
        = (Ret (), payment_for payment_id method bill,
           print (Print "Invalid payment amount. Cannot process payment.")
             w2).
Proof.
  intros Ho Hempty.
  assert (Hl : current_lines w o = Some []).
  { unfold current_lines. rewrite Ho. simpl. by rewrite Hempty. }
  unfold Bill.init. rewrite (get_total_lines _ _ _ Hl). simpl.
  rewrite fsum_nil. unfold Order.TAX_RATE. rewrite total_of_nothing.
  eexists _, _, _. split; [done|]. simpl.
  split; [apply lookup_insert_eq|]. simpl. split; [done|].
  intros pid method w2. unfold Payment.process_payment. simpl.
  by rewrite fle_0_zero.
Qed.

Lemma Bill_of_empty_order_not_payable_witness :
  ∃ ord,
    w_orders w_pending !! 1%positive = Some ord
    ∧ order_items ord = []
    ∧ ∃ b w1 bill,
        Bill.init w_pending 1 1%positive = Some (b, w1)
        ∧ w_bills w1 !! b = Some bill
        ∧ bill_total bill = 0%Qc
        ∧ Payment.process_payment (payment_for "PAY001" "Card" bill) w1
          = (Ret (), payment_for "PAY001" "Card" bill,
             print (Print "Invalid payment amount. Cannot process payment.")
               w1).
Proof.
  eexists.
  assert (H1 : w_orders w_pending !! 1%positive
    = Some {| order_id := 1; order_date := today; order_status := "Pending";
              order_items := []; _observers := [OrderObserver 0] |})
    by reflexivity.
  split; [exact H1|]. split; [reflexivity|].
  destruct (Bill_of_empty_order_not_payable w_pending 1 1%positive _ H1
              eq_refl) as (b & w1 & bill & Hb & Hl & Ht & Hp).
  exists b, w1, bill. split; [exact Hb|]. split; [exact Hl|].
  split; [exact Ht|]. apply Hp.
Defined.

(** ** Payment at the end of the input *)

Lemma ask_method_exhausted {py : PyLib} (inp : list string) (m : string)
    (out : list Output) :
  Payment.valid_method m = false →
  Forall (λ x, Payment.valid_method x = false) inp →
  Payment.ask_method m inp out
    = (Raise EOFError, default m (last inp), [],
       out ++ replicate (S (length inp)) (Print Payment.prompt)).
Proof.
  intros Hm Hinp. revert m out Hm.
  induction Hinp as [|x inp Hx _ IH]; intros m out Hm; simpl; rewrite Hm.
  - done.
  - rewrite (IH x (out ++ [Print Payment.prompt]) Hx).
    rewrite <- app_assoc. simpl. rewrite last_cons.
    by destruct (last inp).
Qed.

(** Payment.process_payment when the input runs out: when [amount <= 0]
    does not hold, [method.upper()] is neither "CASH" nor "CARD" and no
    line left to read upper-cases to one of them, the call ends with
    [EOFError] after one prompt for the first method and one per line
    read; no confirmation is printed, and the payment is left with the
    last line read as its method. *)
Theorem Payment_process_payment_eof {py : PyLib} (self : Payment)
    (w : World) :
  fle_0 (payment_amount self) = false →
  ¬ cash_or_card (payment_method self) →
  Forall (λ x, ¬ cash_or_card x) (w_stdin w) →
  Payment.process_payment self w
    = (Raise EOFError,
       set_payment_method
         (default (payment_method self) (last (w_stdin w))) self,
       {| w_items := w_items w; w_orders := w_orders w;
          w_bills := w_bills w; w_updates := w_updates w;
          w_stdout := w_stdout w
            ++ replicate (S (length (w_stdin w))) (Print Payment.prompt);
          w_stdin := [] |}).
Proof.
  intros Hpos Hm Hin. unfold Payment.process_payment. rewrite Hpos.
  rewrite ask_method_exhausted.
  - by rewrite foldl_print.
  - by apply invalid_method_not_cash_or_card.
  - eapply Forall_impl; [exact Hin|]. intros x Hx. simpl in Hx.
    by apply invalid_method_not_cash_or_card.
Qed.

Lemma Payment_process_payment_eof_witness :
  let w := set_stdin ["cheque"; "voucher"] empty_world in
  fle_0 (payment_amount pay_cheque) = false
  ∧ ¬ cash_or_card (payment_method pay_cheque)
  ∧ Forall (λ x, ¬ cash_or_card x) (w_stdin w)
  ∧ Payment.process_payment pay_cheque w
    = (Raise EOFError, set_payment_method "voucher" pay_cheque,
       {| w_items := ∅; w_orders := ∅; w_bills := ∅; w_updates := [];
          w_stdout := replicate 3 (Print Payment.prompt);
          w_stdin := [] |}).
Proof.
  intros w.
  assert (Hbad : ∀ x, Payment.valid_method x = false → ¬ cash_or_card x).
  { intros x Hx H. apply valid_method_cash_or_card in H. congruence. }
  assert (H1 : fle_0 (payment_amount pay_cheque) = false) by reflexivity.
  assert (H2 : ¬ cash_or_card (payment_method pay_cheque))
    by (by apply Hbad).
  assert (H3 : Forall (λ x, ¬ cash_or_card x) (w_stdin w))
    by (repeat constructor; by apply Hbad).
  split; [exact H1|]. split; [exact H2|]. split; [exact H3|].
  exact (Payment_process_payment_eof pay_cheque w H1 H2 H3).
Defined.

(** ** What the observers print *)

Lemma prints_of_replicate {py : PyLib}
    (message : string) (obs : list Observer) :
  prints_of message obs
  = replicate (length (filter is_OrderObserver obs))
      (Print ("[Notification] " ++ message)).
Proof.
  induction obs as [|ob obs IH]; [done|]. destruct ob as [k|k].
  - rewrite filter_cons_False by (simpl; tauto). exact IH.
  - rewrite filter_cons_True by done.
    change (prints_of message (OrderObserver k :: obs))
      with (Print ("[Notification] " ++ message) :: prints_of message obs).
    by rewrite IH.
Qed.

(** Observer.update / OrderObserver.update under Subject.notify: one
    [notify(message)] prints the line "[Notification] <message>" once per
    attached [OrderObserver] and nothing for a plain [Observer]; it changes
    neither the orders nor the lines nor the bills. *)
Theorem Subject_notify_prints {py : PyLib} (w : World) (o : loc) (ord : Order)
    (message : string) :
  w_orders w !! o = Some ord →
  ∃ w', Subject.notify w o message = Some w'
    ∧ w_stdout w' = w_stdout w
        ++ replicate (length (filter is_OrderObserver (_observers ord)))
             (Print ("[Notification] " ++ message))
    ∧ w_orders w' = w_orders w ∧ w_items w' = w_items w
    ∧ w_bills w' = w_bills w.
Proof.
  intros Ho. rewrite (notify_world _ _ _ _ Ho). eexists. split; [done|].
  simpl. by rewrite prints_of_replicate.
Qed.

Lemma Subject_notify_prints_witness :
  let w := default w_pending
             (Subject.attach w_pending 1%positive (BaseObserver 1)) in
  ∃ ord,
    w_orders w !! 1%positive = Some ord
    ∧ _observers ord = [OrderObserver 0; BaseObserver 1]
    ∧ ∃ w', Subject.notify w 1%positive "ping" = Some w'
        ∧ w_stdout w' = w_stdout w ++ [Print "[Notification] ping"].
Proof.
  intros w. eexists.
  assert (H1 : w_orders w !! 1%positive
    = Some {| order_id := 1; order_date := today; order_status := "Pending";
              order_items := [];
              _observers := [OrderObserver 0; BaseObserver 1] |})
    by reflexivity.
  split; [exact H1|]. split; [reflexivity|].
  destruct (Subject_notify_prints w 1%positive _ "ping" H1)
    as (w' & Hn & Hout & _).
  exists w'. split; [exact Hn|exact Hout].
Defined.

(** ** The factory *)



(** ** What display_order and generate_bill print *)

Lemma print_lines_world {py : PyLib}
    (text : nat → OrderItem → PyResult string)
    (lines : list OrderItem) (i : nat) (w : World) :
  snd (print_lines text i lines w)
  = {| w_items := w_items w; w_orders := w_orders w; w_bills := w_bills w;
       w_updates := w_updates w;
       w_stdout := w_stdout w ++ (Print <$> line_texts text i lines);
       w_stdin := w_stdin w |}.
Proof.
  revert i w. induction lines as [|it lines IH]; intros i w; simpl.
  - rewrite app_nil_r. by destruct w.
  - destruct (text i it) as [s|e]; simpl.
    + rewrite IH. simpl. by rewrite <- app_assoc.
    + rewrite app_nil_r. by destruct w.
Qed.

Lemma print_lines_all {py : PyLib} (text : nat → OrderItem → PyResult string)
    (lines : list OrderItem) (i : nat) (w : World) :
  Forall (λ it, ∀ i, ∃ s, text i it = Ret s) lines →
  fst (print_lines text i lines w) = Ret ()
  ∧ length (line_texts text i lines) = length lines.
Proof.
  intros H. revert i w.
  induction H as [|it lines Hit _ IH]; intros i w; simpl; [done|].
  destruct (Hit i) as [s ->]. simpl.
  destruct (IH (S i) (print (Print s) w)) as [-> ->]. done.
Qed.

Lemma print_lines_stop {py : PyLib} (text : nat → OrderItem → PyResult string)
    (good rest : list OrderItem) (bad : OrderItem) (e : PyExc)
    (i : nat) (w : World) :
  Forall (λ it, ∀ i, ∃ s, text i it = Ret s) good →
  (∀ i, text i bad = Raise e) →
  fst (print_lines text i (good ++ bad :: rest) w) = Raise e
  ∧ line_texts text i (good ++ bad :: rest) = line_texts text i good
  ∧ length (line_texts text i good) = length good.
Proof.
  intros H Hbad. revert i w.
  induction H as [|it good Hit _ IH]; intros i w; simpl.
  - by rewrite (Hbad i).
  - destruct (Hit i) as [s ->]. simpl.
    destruct (IH (S i) (print (Print s) w)) as (-> & -> & ->). done.
Qed.

Lemma order_line_text_Ret {py : PyLib} (format_2f : float → string)
    (it : OrderItem) (t : float) (i : nat) :
  line_product it t → ∃ s, order_line_text format_2f i it = Ret s.
Proof.
  intros Ht. pose proof Ht as (m & q & Hm & _ & _).
  apply get_line_total_product in Ht.
  unfold order_line_text. rewrite Hm, Ht. destruct m; eauto.
Qed.

Lemma order_line_text_Raise {py : PyLib} (format_2f : float → string)
    (it : OrderItem) (e : PyExc) (i : nat) :
  OrderItem.get_line_total it = Raise e →
  order_line_text format_2f i it = Raise e.
Proof.
  unfold order_line_text. intros He. rewrite He.
  unfold OrderItem.get_line_total in He.
  destruct (menu_item it) as [[]|]; [done|done|]. by injection He as <-.
Qed.

Lemma bill_line_text_Ret {py : PyLib} (format_2f : float → string)
    (it : OrderItem) (t : float) (i : nat) :
  line_product it t → ∃ s, bill_line_text format_2f i it = Ret s.
Proof.
  intros Ht. pose proof Ht as (m & q & Hm & _ & _).
  apply get_line_total_product in Ht.
  unfold bill_line_text. rewrite Hm, Ht. eauto.
Qed.

Lemma display_order_unfold {py : PyLib} (format_2f : float → string)
    (w : World) (o : loc) (ord : Order) (lines : list OrderItem) :
  w_orders w !! o = Some ord →
  mapM (λ l, w_items w !! l) (order_items ord) = Some lines →
  display_order format_2f w o =
    if bool_decide (order_items ord = []) then
      Some (Ret (), print (Print (nl +:+ "Order is currently empty." +:+ nl)) w)
    else
      match print_lines (order_line_text format_2f) 1 lines
              (print (Print (nl +:+ "Your order:")) w) with
      | (Raise e, w) => Some (Raise e, w)
      | (Ret _, w) =>
          '(total, w) ← Order.get_total w o;
          Some (Ret (), print (Print ("Order Total (including VAT): £"
                                      +:+ format_2f total +:+ nl)) w)
      end.
Proof.
  intros Ho Hm. unfold display_order. rewrite Ho. simpl.
  case_bool_decide; [done|]. by rewrite Hm.
Qed.

(** Order.display_order on an order whose line totals all compute (every
    line references a menu item and has a quantity that converts to a
    float): the call returns normally and changes nothing but the
    terminal.  For an order without lines it prints the single "Order is
    currently empty." message; otherwise it prints the heading, one line
    per order line in order, and a last line with the value of
    [get_total]. *)
Theorem Order_display_order_ok {py : PyLib} (format_2f : float → string)
    (w : World) (o : loc) (lines : list OrderItem) (ts : list float) :
  current_lines w o = Some lines →
  Forall2 line_product lines ts →
  let texts := line_texts (order_line_text format_2f) 1 lines in
  let s := fsum ts in
  display_order format_2f w o
    = Some (Ret (),
        {| w_items := w_items w; w_orders := w_orders w;
           w_bills := w_bills w; w_updates := w_updates w;
           w_stdout := w_stdout w ++
             match lines with
             | [] => [Print (nl +:+ "Order is currently empty." +:+ nl)]
             | _ :: _ =>
                 Print (nl +:+ "Your order:") :: (Print <$> texts)
                 ++ [Print ("Order Total (including VAT): £"
                            +:+ format_2f (fadd s (fmul s Order.TAX_RATE))
                            +:+ nl)]
             end;
           w_stdin := w_stdin w |})
  ∧ length texts = length lines.
Proof.
  intros Hl Hts texts s.
  pose proof Hl as (ord & Ho & HF)%current_lines_Some.
  pose proof (Forall2_length _ _ _ HF) as Hlen.
  set (w0 := print (Print (nl +:+ "Your order:")) w).
  assert (Hall : Forall (λ it, ∀ i, ∃ s,
                   order_line_text format_2f i it = Ret s) lines).
  { clear -Hts. induction Hts as [|it t lines ts Ht _ IH]; constructor;
      [|done]. intros i. by eapply order_line_text_Ret. }
  destruct (print_lines_all (order_line_text format_2f) lines 1 w0 Hall)
    as [Hr Htexts].
  split; [|exact Htexts].
  rewrite (display_order_unfold _ _ _ _ _ Ho (mapM_Some_2 _ _ _ HF)).
  fold w0.
  destruct lines as [|it lines].
  - destruct (order_items ord); [|done]. by rewrite bool_decide_eq_true_2.
  - rewrite bool_decide_eq_false_2 by (by intros Heq; rewrite Heq in Hlen).
    pose proof (print_lines_world (order_line_text format_2f) (it :: lines)
                  1 w0) as Hw1.
    destruct (print_lines (order_line_text format_2f) 1 (it :: lines) w0)
      as [r w1].
    simpl in Hr, Hw1. subst r w1.
    assert (Hl1 : ∀ u p, current_lines
      {| w_items := w_items w; w_orders := w_orders w; w_bills := w_bills w;
         w_updates := u; w_stdout := p; w_stdin := w_stdin w |} o
      = Some (it :: lines)).
    { intros u p. apply current_lines_Some. by exists ord. }
    rewrite (get_total_products _ o (it :: lines) ts (Hl1 _ _) Hts).
    simpl. unfold print. simpl. do 3 f_equal.
    by rewrite <- !app_assoc.
Qed.

Lemma Order_display_order_ok_witness :
  let line1 := {| orderitem_id := 1; menu_item := Some chuna; quantity := 2 |} in
  let line2 := {| orderitem_id := 2; menu_item := Some latte; quantity := 1 |} in
  let t1 := (Q2Qc (350 # 100) * Q2Qc (inject_Z 2))%Qc in
  let t2 := (Q2Qc (280 # 100) * Q2Qc (inject_Z 1))%Qc in
  current_lines w_two_lines 1%positive = Some [line1; line2]
  ∧ Forall2 line_product [line1; line2] [t1; t2]
  ∧ ∃ w', display_order format_2f_exact w_two_lines 1%positive
          = Some (Ret (), w')
      ∧ w_stdout w' = w_stdout w_two_lines
          ++ [Print (nl +:+ "Your order:");
              Print "1. Chuna Sandwich x2 - £7.00";
              Print "2. Latte (Medium) x1 - £2.80";
              Print ("Order Total (including VAT): £11.76" +:+ nl)].
Proof.
  intros line1 line2 t1 t2.
  assert (H1 : current_lines w_two_lines 1%positive = Some [line1; line2])
    by reflexivity.
  assert (H2 : Forall2 line_product [line1; line2] [t1; t2]).
  { repeat constructor.
    - exists chuna, (Q2Qc (inject_Z 2)).
      split; [reflexivity|]. split; [by vm_compute|reflexivity].
    - exists latte, (Q2Qc (inject_Z 1)).
      split; [reflexivity|]. split; [by vm_compute|reflexivity]. }
  split; [exact H1|]. split; [exact H2|].
  eexists. split.
  - exact (proj1 (Order_display_order_ok format_2f_exact w_two_lines
                    1%positive _ _ H1 H2)).
  - reflexivity.
Defined.



Lemma generate_bill_unfold {py : PyLib} (format_2f : float → string)
    (strftime : date → string) (w : World) (b : loc) (bill : Bill)
    (ord : Order) (lines : list OrderItem) :
  w_bills w !! b = Some bill →
  w_orders w !! order bill = Some ord →
  mapM (λ l, w_items w !! l) (order_items ord) = Some lines →
  generate_bill format_2f strftime w b =
    let w := print (Print (nl +:+ "===== Cafe Bill =====")) w in
    let w := print (Print ("Bill ID: " +:+ pretty (bill_id bill))) w in
    let w := print (Print ("Order ID: " +:+ pretty (order_id ord))) w in
    let w := print (Print ("Date: " +:+ strftime (order_date ord))) w in
    let w := print (Print "---------------------") w in
    match print_lines (bill_line_text format_2f) 0 lines w with
    | (Raise e, w) => Some (Raise e, w)
    | (Ret _, w) =>
        let w := print (Print "---------------------") w in
        let w := print (Print ("Total (including VAT): £"
                               +:+ format_2f (bill_total bill))) w in
        Some (Ret (), print (Print ("=====================" +:+ nl)) w)
    end.
Proof.
  intros Hb Ho Hm. unfold generate_bill. rewrite Hb. simpl.
  rewrite Ho. simpl. by rewrite Hm.
Qed.



(** ** The catalog on the terminal *)

Lemma foldl_print_lines {py : PyLib} (f : MenuItem → string) (l : list MenuItem)
    (w : World) :
  foldl (λ w item, print (Print (f item)) w) w l
  = {| w_items := w_items w; w_orders := w_orders w; w_bills := w_bills w;
       w_updates := w_updates w;
       w_stdout := w_stdout w ++ ((λ item, Print (f item)) <$> l);
       w_stdin := w_stdin w |}.
Proof.
  revert w. induction l as [|x l IH]; intros w; simpl.
  - rewrite app_nil_r. by destruct w.
  - rewrite IH. simpl. by rewrite <- app_assoc.
Qed.


(** ** Placing an order *)



